(** * A shallow embedding of the SCTP simulator's protocol core

    The transport simulator is a single React component ([App]).  Its
    protocol logic lives in a handful of closures created on every render:
    [addLog], [sendPacket], [handleDropPacket], [processPacketArrival],
    [schedulePacketArrival], [sendPacketWithSchedule],
    [processPacketArrivalRef.current], [schedulePacketArrivalRef.current]
    and the three button handlers.

    What the embedding keeps from the source:

    - the three pieces of React state [client], [server], [packets];
    - the difference between a value READ through a closure (the [client],
      [server] and [packets] constants of the render in which the closure
      was created) and a functional update [setX(prev => ...)], which is
      applied to the store as it is when the update runs.  Every closure
      therefore takes the render it was created in as an explicit argument
      of type [Render.t];
    - an update of [packets] made while an updater of [packets] runs: the
      array the outer updater returns is the one that is stored (see
      [run_arrival]);
    - [setTimeout]: a callback is data ([Callback]), kept in the list of
      pending timers until the event loop fires it;
    - [Math.random], [Date.now] and the wall clock are an oracle ([Env])
      indexed by the number of calls made so far.

    What it leaves out: the annotation service ([handleAnalyzePacket]
    only writes [geminiAnalysis] and [isAnalyzing]), the 500 ms interval
    whose updater returns its argument, and the JSX.  Sequence numbers are
    JavaScript numbers that stay integral; they are modelled by [Z]. *)

From Stdlib Require Import ZArith List String Ascii Bool Lia DecimalString Sorted.
Import ListNotations.

Local Open Scope string_scope.
Local Open Scope Z_scope.

(** ** types.ts *)

Inductive Role := CLIENT | SERVER.

Definition Role_eqb (a b : Role) : bool :=
  match a, b with
  | CLIENT, CLIENT | SERVER, SERVER => true
  | _, _ => false
  end.

Module ConnectionState.
Inductive t := CLOSED | LISTEN | SYN_SENT | SYN_RCVD | ESTABLISHED | FIN_WAIT.

Definition eqb (a b : t) : bool :=
  match a, b with
  | CLOSED, CLOSED | LISTEN, LISTEN | SYN_SENT, SYN_SENT
  | SYN_RCVD, SYN_RCVD | ESTABLISHED, ESTABLISHED | FIN_WAIT, FIN_WAIT => true
  | _, _ => false
  end.
End ConnectionState.

Module PacketFlag.
Inductive t := NONE | SYN | ACK | SYN_ACK | FIN | RST | DATA.

Definition eqb (a b : t) : bool :=
  match a, b with
  | NONE, NONE | SYN, SYN | ACK, ACK | SYN_ACK, SYN_ACK
  | FIN, FIN | RST, RST | DATA, DATA => true
  | _, _ => false
  end.

(** The string value of each enum member, as template literals print it. *)
Definition toString (f : t) : string :=
  match f with
  | NONE => "NONE" | SYN => "SYN" | ACK => "ACK" | SYN_ACK => "SYN-ACK"
  | FIN => "FIN" | RST => "RST" | DATA => "DATA"
  end.
End PacketFlag.

Module LogEntry.
Inductive kind := info | success | error | warning | traffic.
Record t := mk { id : string; timestamp : string; message : string; type : kind }.
End LogEntry.

Module Packet.
(** [sessionId?: string]: [None] is [undefined].  The optional [dropped]
    field is never written by the component and is left out. *)
Record t := mk {
  id : string;
  source : Role;
  destination : Role;
  flag : PacketFlag.t;
  seq : Z;
  ack : Z;
  payload : string;
  sessionId : option string;
  timestamp : Z
}.
End Packet.

Module NodeState.
(** [sessionId: string | null]: [None] is [null]. *)
Record t := mk {
  role : Role;
  connectionState : ConnectionState.t;
  seq : Z;
  lastAckReceived : Z;
  sessionId : option string;
  logs : list LogEntry.t
}.

(** The object spreads [{ ...prev, field: v }] used by the updaters. *)
Definition with_logs (prev : t) (l : list LogEntry.t) : t :=
  mk (role prev) (connectionState prev) (seq prev) (lastAckReceived prev)
     (sessionId prev) l.
Definition with_seq (prev : t) (s : Z) : t :=
  mk (role prev) (connectionState prev) s (lastAckReceived prev)
     (sessionId prev) (logs prev).
Definition with_connectionState (prev : t) (c : ConnectionState.t) : t :=
  mk (role prev) c (seq prev) (lastAckReceived prev) (sessionId prev) (logs prev).
Definition with_lastAckReceived (prev : t) (a : Z) : t :=
  mk (role prev) (connectionState prev) (seq prev) a (sessionId prev) (logs prev).
Definition with_sessionId (prev : t) (s : option string) : t :=
  mk (role prev) (connectionState prev) (seq prev) (lastAckReceived prev) s
     (logs prev).
End NodeState.

(** ** JavaScript values the handlers rely on *)

(** [x || undefined] and [x || null] on an optional string: [null],
    [undefined] and the empty string are falsy. *)
Definition or_nothing (x : option string) : option string :=
  match x with
  | Some s => if String.eqb s "" then None else Some s
  | None => None
  end.

(** ['...' + x] for an optional string. *)
Definition concat_optional (x : option string) : string :=
  match x with Some s => s | None => "undefined" end.

(** [`${n}`] for an integral number. *)
Definition Number_toString (n : Z) : string := NilZero.string_of_int (Z.to_int n).

(** What a call evaluates to: a function body without a [return] statement
    yields [undefined]. *)
Inductive JsValue := undefined | boolean (b : bool).

(** ** Constants *)

Definition INITIAL_SEQ : Z := 100.
Definition INITIAL_SERVER_SEQ : Z := 5000.
Definition LATENCY_MS : Z := 3000.

(** ** Renders, timers and the store *)

Module Render.
(** The constants [client], [server], [packets] a closure sees. *)
Record t := mk {
  client : NodeState.t;
  server : NodeState.t;
  packets : list Packet.t
}.
End Render.

(** The bodies handed to [setTimeout] (and the continuation of the one
    [await]), each with the render its free variables come from. *)
Inductive Callback :=
| arrival (r : Render.t) (packet : Packet.t)
    (* schedulePacketArrival, line 227 *)
| responder_stub
    (* processPacketArrival, line 135: the body holds comments only *)
| arrival_ref (packet : Packet.t)
    (* schedulePacketArrivalRef.current, line 361 *)
| auto_reply (r : Render.t) (from : Role) (flag : PacketFlag.t) (overrideAck : Z)
    (* processPacketArrivalRef.current, lines 312, 323 and 345 *)
| send_data_resume (r : Render.t)
    (* handleSendData after [await generateSecurePayload()] *).

Record Timer := mkTimer { callback : Callback; delay : Z }.

Record World := mkWorld {
  store : Render.t;       (* the React state, as the next render will see it *)
  timers : list Timer;    (* pending callbacks, oldest first *)
  draws : nat             (* oracle calls made so far *)
}.

(** The environment: the n-th oracle call answers with the n-th value. *)
Record Env := mkEnv {
  random_id : nat -> string;       (* Math.random().toString(36).substring(7) *)
  random_session : nat -> string;  (* Math.random().toString(36).substring(2, 8).toUpperCase() *)
  random_floor : nat -> Z;         (* Math.floor(Math.random()*10000) *)
  Date_now : nat -> Z;             (* Date.now() *)
  time_string : nat -> string;     (* new Date().toLocaleTimeString(...) *)
  secure_payload : nat -> string   (* the value generateSecurePayload() resolves to *)
}.

(** ** The effect monad of the component *)

Definition M (A : Type) : Type := World -> A * World.

Definition ret {A} (a : A) : M A := fun w => (a, w).
Definition bind {A B} (m : M A) (k : A -> M B) : M B :=
  fun w => let (a, w') := m w in k a w'.
Definition exec {A} (m : M A) (w : World) : World := snd (m w).
Definition result {A} (m : M A) (w : World) : A := fst (m w).

Declare Scope js_scope.
Delimit Scope js_scope with js.
Notation "x <- m ;; k" := (bind m (fun x => k))
  (at level 61, m at next level, right associativity) : js_scope.
Notation "m ;; k" := (bind m (fun _ => k))
  (at level 61, right associativity) : js_scope.
Local Open Scope js_scope.

Definition when (b : bool) (m : M unit) : M unit := if b then m else ret tt.

Definition setClient (f : NodeState.t -> NodeState.t) : M unit :=
  fun w =>
    let s := store w in
    (tt, mkWorld (Render.mk (f (Render.client s)) (Render.server s) (Render.packets s))
                 (timers w) (draws w)).

Definition setServer (f : NodeState.t -> NodeState.t) : M unit :=
  fun w =>
    let s := store w in
    (tt, mkWorld (Render.mk (Render.client s) (f (Render.server s)) (Render.packets s))
                 (timers w) (draws w)).

Definition setPackets (f : list Packet.t -> list Packet.t) : M unit :=
  fun w =>
    let s := store w in
    (tt, mkWorld (Render.mk (Render.client s) (Render.server s) (f (Render.packets s)))
                 (timers w) (draws w)).

Definition setTimeout (cb : Callback) (ms : Z) : M unit :=
  fun w => (tt, mkWorld (store w) (timers w ++ [mkTimer cb ms]) (draws w)).

(** One call to the environment; the answer is looked up in [Env]. *)
Definition oracle : M nat :=
  fun w => (draws w, mkWorld (store w) (timers w) (S (draws w))).

(** [current.find(p => p.id === id)] and [prev.filter(p => p.id !== id)]. *)
Definition find_id (id : string) (l : list Packet.t) : option Packet.t :=
  find (fun p => String.eqb (Packet.id p) id) l.
Definition remove_id (id : string) (l : list Packet.t) : list Packet.t :=
  filter (fun p => negb (String.eqb (Packet.id p) id)) l.

(** Flags for which the sender's [seq] is advanced (lines 85 and 271). *)
Definition advances_seq (flag : PacketFlag.t) : bool :=
  PacketFlag.eqb flag PacketFlag.SYN || PacketFlag.eqb flag PacketFlag.FIN
  || PacketFlag.eqb flag PacketFlag.DATA || PacketFlag.eqb flag PacketFlag.SYN_ACK.

(** ** The closures of [App] *)

Section App.

Variable env : Env.

(** Lines 41-54. *)
Definition addLog (role : Role) (message : string) (type : LogEntry.kind) : M unit :=
  i <- oracle ;;
  t <- oracle ;;
  let entry := LogEntry.mk (random_id env i) (time_string env t) message type in
  if Role_eqb role CLIENT
  then setClient (fun prev => NodeState.with_logs prev (NodeState.logs prev ++ [entry])%list)
  else setServer (fun prev => NodeState.with_logs prev (NodeState.logs prev ++ [entry])%list).

(** The object literal [newPacket] of lines 64-74 and 251-261. *)
Definition newPacket (r : Render.t) (from : Role) (flag : PacketFlag.t)
    (payload : string) (overrideSeq overrideAck : option Z) (i t : nat) : Packet.t :=
  let sender := if Role_eqb from CLIENT then Render.client r else Render.server r in
  let receiverRole := if Role_eqb from CLIENT then SERVER else CLIENT in
  let seq := match overrideSeq with Some s => s | None => NodeState.seq sender end in
  let ack := match overrideAck with Some a => a | None => NodeState.lastAckReceived sender end in
  Packet.mk (random_id env i) from receiverRole flag seq ack payload
            (or_nothing (NodeState.sessionId sender)) (Date_now env t).

Definition sent_message (p : Packet.t) : string :=
  "Sent " ++ PacketFlag.toString (Packet.flag p)
    ++ " (Seq=" ++ Number_toString (Packet.seq p)
    ++ " Ack=" ++ Number_toString (Packet.ack p) ++ ")".

(** Lines 85-91 and 271-274. *)
Definition advance_sender (from : Role) (flag : PacketFlag.t) : M unit :=
  when (advances_seq flag)
    (if Role_eqb from CLIENT
     then setClient (fun prev => NodeState.with_seq prev (NodeState.seq prev + 1))
     else setServer (fun prev => NodeState.with_seq prev (NodeState.seq prev + 1))).

(** Lines 56-92.  No caller is left in the component. *)
Definition sendPacket (r : Render.t) (from : Role) (flag : PacketFlag.t)
    (payload : string) (overrideSeq overrideAck : option Z) : M unit :=
  i <- oracle ;;
  t <- oracle ;;
  let p := newPacket r from flag payload overrideSeq overrideAck i t in
  setPackets (fun prev => (prev ++ [p])%list) ;;
  addLog from (sent_message p) LogEntry.traffic ;;
  advance_sender from flag.

(** Lines 94-99.  [packets.find] reads the render's [packets]. *)
Definition handleDropPacket (r : Render.t) (id : string) : M JsValue :=
  setPackets (remove_id id) ;;
  match find_id id (Render.packets r) with
  | Some pkt =>
      addLog (Packet.source pkt)
        ("Packet " ++ PacketFlag.toString (Packet.flag pkt) ++ " lost/dropped in transit!")
        LogEntry.error
  | None => ret tt
  end ;;
  ret undefined.

(** Lines 110-188: the [useCallback] handler. *)
Definition processPacketArrival (r : Render.t) (packet : Packet.t) : M unit :=
  let client := Render.client r in
  let server := Render.server r in
  setPackets (remove_id (Packet.id packet)) ;;
  let receiver := if Role_eqb (Packet.destination packet) CLIENT then client else server in
  addLog (NodeState.role receiver)
    ("Received " ++ PacketFlag.toString (Packet.flag packet)
       ++ " (Seq=" ++ Number_toString (Packet.seq packet) ++ ")")
    LogEntry.traffic ;;
  (* SERVER STATE MACHINE *)
  when (Role_eqb (NodeState.role receiver) SERVER)
    (if ConnectionState.eqb (NodeState.connectionState server) ConnectionState.LISTEN then
       when (PacketFlag.eqb (Packet.flag packet) PacketFlag.SYN)
         (addLog SERVER "SYN received. Initiating Handshake." LogEntry.success ;;
          n <- oracle ;;
          let newSessionId := "SES-" ++ random_session env n in
          setServer (fun prev =>
            NodeState.with_sessionId
              (NodeState.with_lastAckReceived
                 (NodeState.with_connectionState prev ConnectionState.SYN_RCVD)
                 (Packet.seq packet + 1))
              (Some newSessionId)) ;;
          setTimeout responder_stub 100)
     else if ConnectionState.eqb (NodeState.connectionState server) ConnectionState.SYN_RCVD then
       when (PacketFlag.eqb (Packet.flag packet) PacketFlag.ACK
             && (Packet.ack packet =? NodeState.seq server))
         (addLog SERVER "ACK received. Connection ESTABLISHED." LogEntry.success ;;
          setServer (fun prev =>
            NodeState.with_connectionState prev ConnectionState.ESTABLISHED))
     else if ConnectionState.eqb (NodeState.connectionState server) ConnectionState.ESTABLISHED then
       if PacketFlag.eqb (Packet.flag packet) PacketFlag.DATA then
         addLog SERVER ("Data Processed: " ++ Packet.payload packet) LogEntry.success ;;
         setServer (fun prev => NodeState.with_lastAckReceived prev (Packet.seq packet + 1))
       else if PacketFlag.eqb (Packet.flag packet) PacketFlag.FIN then
         addLog SERVER "FIN received. Closing connection." LogEntry.warning ;;
         setServer (fun prev =>
           NodeState.with_sessionId
             (NodeState.with_connectionState prev ConnectionState.CLOSED) None)
       else ret tt
     else ret tt) ;;
  (* CLIENT STATE MACHINE *)
  when (Role_eqb (NodeState.role receiver) CLIENT)
    (if ConnectionState.eqb (NodeState.connectionState client) ConnectionState.SYN_SENT then
       when (PacketFlag.eqb (Packet.flag packet) PacketFlag.SYN_ACK)
         (addLog CLIENT
            ("SYN-ACK received. Session: " ++ concat_optional (Packet.sessionId packet))
            LogEntry.success ;;
          setClient (fun prev =>
            NodeState.with_sessionId
              (NodeState.with_lastAckReceived
                 (NodeState.with_connectionState prev ConnectionState.ESTABLISHED)
                 (Packet.seq packet + 1))
              (or_nothing (Packet.sessionId packet))))
     else if ConnectionState.eqb (NodeState.connectionState client) ConnectionState.ESTABLISHED then
       when (PacketFlag.eqb (Packet.flag packet) PacketFlag.ACK)
         (addLog CLIENT "Data/Packet Acknowledged by Server." LogEntry.success)
     else ret tt).

(** Lines 226-238: only the timer is set here; its body is [run_arrival]. *)
Definition schedulePacketArrival (r : Render.t) (packet : Packet.t) : M unit :=
  setTimeout (arrival r packet) LATENCY_MS.

(** Lines 241-277. *)
Definition sendPacketWithSchedule (r : Render.t) (from : Role) (flag : PacketFlag.t)
    (payload : string) (overrideSeq overrideAck : option Z) : M unit :=
  i <- oracle ;;
  t <- oracle ;;
  let p := newPacket r from flag payload overrideSeq overrideAck i t in
  setPackets (fun prev => (prev ++ [p])%list) ;;
  addLog from (sent_message p) LogEntry.traffic ;;
  advance_sender from flag ;;
  schedulePacketArrival r p.

(** Lines 293-353: the handler stored in [processPacketArrivalRef]. *)
Definition processPacketArrivalRef_current (r : Render.t) (packet : Packet.t) : M unit :=
  let client := Render.client r in
  let server := Render.server r in
  setPackets (remove_id (Packet.id packet)) ;;
  let receiver := if Role_eqb (Packet.destination packet) CLIENT then client else server in
  addLog (NodeState.role receiver)
    ("Received " ++ PacketFlag.toString (Packet.flag packet)) LogEntry.traffic ;;
  (* SERVER LOGIC *)
  when (Role_eqb (NodeState.role receiver) SERVER)
    (if PacketFlag.eqb (Packet.flag packet) PacketFlag.SYN
        && ConnectionState.eqb (NodeState.connectionState server) ConnectionState.LISTEN then
       n <- oracle ;;
       let newSessionId := "SES-" ++ Number_toString (random_floor env n) in
       addLog SERVER ("SYN Valid. Allocating Session " ++ newSessionId) LogEntry.success ;;
       setServer (fun prev =>
         NodeState.with_sessionId
           (NodeState.with_lastAckReceived
              (NodeState.with_connectionState prev ConnectionState.SYN_RCVD)
              (Packet.seq packet + 1))
           (Some newSessionId)) ;;
       setTimeout (auto_reply r SERVER PacketFlag.SYN_ACK (Packet.seq packet + 1)) 500
     else if PacketFlag.eqb (Packet.flag packet) PacketFlag.ACK
        && ConnectionState.eqb (NodeState.connectionState server) ConnectionState.SYN_RCVD then
       addLog SERVER "Handshake Completed." LogEntry.success ;;
       setServer (fun prev =>
         NodeState.with_connectionState prev ConnectionState.ESTABLISHED)
     else if PacketFlag.eqb (Packet.flag packet) PacketFlag.DATA
        && ConnectionState.eqb (NodeState.connectionState server) ConnectionState.ESTABLISHED then
       setServer (fun prev => NodeState.with_lastAckReceived prev (Packet.seq packet + 1)) ;;
       setTimeout (auto_reply r SERVER PacketFlag.ACK (Packet.seq packet + 1)) 300
     else if PacketFlag.eqb (Packet.flag packet) PacketFlag.FIN then
       setServer (fun prev =>
         NodeState.with_sessionId
           (NodeState.with_connectionState prev ConnectionState.CLOSED) None) ;;
       addLog SERVER "Connection Reset/Closed" LogEntry.warning
     else ret tt) ;;
  (* CLIENT LOGIC *)
  when (Role_eqb (NodeState.role receiver) CLIENT)
    (if PacketFlag.eqb (Packet.flag packet) PacketFlag.SYN_ACK
        && ConnectionState.eqb (NodeState.connectionState client) ConnectionState.SYN_SENT then
       addLog CLIENT "Server Accepted. Sending Final ACK." LogEntry.success ;;
       setClient (fun prev =>
         NodeState.with_sessionId
           (NodeState.with_lastAckReceived
              (NodeState.with_connectionState prev ConnectionState.ESTABLISHED)
              (Packet.seq packet + 1))
           (or_nothing (Packet.sessionId packet))) ;;
       setTimeout (auto_reply r CLIENT PacketFlag.ACK (Packet.seq packet + 1)) 200
     else ret tt).

(** Lines 359-370.  Nothing in the component calls it. *)
Definition schedulePacketArrivalRef_current (packet : Packet.t) : M unit :=
  setTimeout (arrival_ref packet) LATENCY_MS.

(** *** User actions, lines 374-389 *)

Definition handleConnect (r : Render.t) : M unit :=
  if negb (ConnectionState.eqb (NodeState.connectionState (Render.client r))
                               ConnectionState.CLOSED)
  then ret tt
  else
    setClient (fun prev => NodeState.with_connectionState prev ConnectionState.SYN_SENT) ;;
    sendPacketWithSchedule r CLIENT PacketFlag.SYN "" None None.

Definition handleDisconnect (r : Render.t) : M unit :=
  sendPacketWithSchedule r CLIENT PacketFlag.FIN "" None None ;;
  setClient (fun prev =>
    NodeState.with_sessionId
      (NodeState.with_connectionState prev ConnectionState.CLOSED) None).

(** The part of [handleSendData] before the [await]; the rest is the
    callback [send_data_resume], run once the payload has arrived. *)
Definition handleSendData (r : Render.t) : M unit :=
  if negb (ConnectionState.eqb (NodeState.connectionState (Render.client r))
                               ConnectionState.ESTABLISHED)
  then ret tt
  else setTimeout (send_data_resume r) 0.

(** *** Running a callback *)

(** The render whose closures an event handler or a ref read at call time
    belongs to: React has re-rendered since the last update, so it shows
    the store. *)
Definition latest_render : M Render.t := fun w => (store w, w).

(** The timer body of [schedulePacketArrival] (lines 229-236): a call of
    [setPackets] with an updater.  The updater looks for the packet in the
    array it is given, calls the handler when it is there, and returns the
    array it was given on both paths (lines 233 and 235).  The handler's
    [setClient] and [setServer] take effect; its own [setPackets] filter
    (line 111) is queued while the updater runs, and the array the updater
    returns is the value React stores for the outer call, after the filter:
    the packets are those the updater was given, the delivered one among
    them. *)
Definition run_arrival (r : Render.t) (packet : Packet.t) : M unit :=
  now_ <- latest_render ;;
  let current := Render.packets now_ in
  match find_id (Packet.id packet) current with
  | Some _ => processPacketArrival r packet
  | None => ret tt
  end ;;
  setPackets (fun _ => current).

(** [handleArrival] (line 356) reads the ref when it is called. *)
Definition handleArrival (packet : Packet.t) : M unit :=
  r <- latest_render ;;
  processPacketArrivalRef_current r packet.

(** The timer body of [schedulePacketArrivalRef.current] (lines 362-368),
    an updater of the same shape: it calls [handleArrival] when the packet
    is in the array and returns the array it was given. *)
Definition run_arrival_ref (packet : Packet.t) : M unit :=
  now_ <- latest_render ;;
  let current := Render.packets now_ in
  match find_id (Packet.id packet) current with
  | Some _ => handleArrival packet
  | None => ret tt
  end ;;
  setPackets (fun _ => current).

Definition run_callback (cb : Callback) : M unit :=
  match cb with
  | arrival r packet => run_arrival r packet
  | responder_stub => ret tt
  | arrival_ref packet => run_arrival_ref packet
  | auto_reply r from flag overrideAck =>
      sendPacketWithSchedule r from flag "" None (Some overrideAck)
  | send_data_resume r =>
      n <- oracle ;;
      sendPacketWithSchedule r CLIENT PacketFlag.DATA (secure_payload env n) None None
  end.

End App.

(** ** The event loop

    An event is a click or the firing of one pending callback.  [Fire n]
    picks any pending callback: the browser fires them by deadline, which
    is one of the orders covered, and no statement below depends on the
    order. *)

Inductive Event :=
| Connect                    (* click on INIT HANDSHAKE *)
| Disconnect                 (* click on DISCONNECT *)
| SendData                   (* click on SEND SECURE DATA *)
| DropPacket (id : string)   (* click on a packet in transit *)
| Fire (n : nat)             (* the n-th pending callback runs *).

Fixpoint take_timer (n : nat) (l : list Timer) : option (Timer * list Timer) :=
  match l with
  | [] => None
  | t :: rest =>
      match n with
      | O => Some (t, rest)
      | S n' =>
          match take_timer n' rest with
          | Some (x, rest') => Some (x, t :: rest')
          | None => None
          end
      end
  end.

Section Loop.

Variable env : Env.

Definition fire (n : nat) : M unit :=
  fun w =>
    match take_timer n (timers w) with
    | Some (t, rest) => run_callback env (callback t) (mkWorld (store w) rest (draws w))
    | None => (tt, w)
    end.

(** A click runs the handler of the latest render. *)
Definition step (e : Event) : M unit :=
  match e with
  | Connect => r <- latest_render ;; handleConnect env r
  | Disconnect => r <- latest_render ;; handleDisconnect env r
  | SendData => r <- latest_render ;; handleSendData r
  | DropPacket id => r <- latest_render ;; _ <- handleDropPacket env r id ;; ret tt
  | Fire n => fire n
  end.

Fixpoint run (es : list Event) : M unit :=
  match es with
  | [] => ret tt
  | e :: es' => step e ;; run es'
  end.

End Loop.

(** The two [useState] initialisers and an empty network. *)
Definition initial_client : NodeState.t :=
  NodeState.mk CLIENT ConnectionState.CLOSED INITIAL_SEQ 0 None [].
Definition initial_server : NodeState.t :=
  NodeState.mk SERVER ConnectionState.LISTEN INITIAL_SERVER_SEQ 0 None [].
Definition initial : World :=
  mkWorld (Render.mk initial_client initial_server []) [] 0.

(** Each node keeps the role it was created with. *)
Definition roles_ok (r : Render.t) : Prop :=
  NodeState.role (Render.client r) = CLIENT /\ NodeState.role (Render.server r) = SERVER.

(** The protocol fields of a node: everything but the role and the log. *)
Definition same_protocol_fields (a b : NodeState.t) : Prop :=
  NodeState.connectionState a = NodeState.connectionState b
  /\ NodeState.seq a = NodeState.seq b
  /\ NodeState.lastAckReceived a = NodeState.lastAckReceived b
  /\ NodeState.sessionId a = NodeState.sessionId b.

(** The transition table as the specification prints it, read as a
    predicate on the receiver a closure sees and the arriving packet.  It is
    the table of the specification, not a definition taken from the code:
    the theorems below compare the handler with it. *)
Definition spec_server_row (server : NodeState.t) (packet : Packet.t) : bool :=
  match NodeState.connectionState server, Packet.flag packet with
  | ConnectionState.LISTEN, PacketFlag.SYN => true
  | ConnectionState.SYN_RCVD, PacketFlag.ACK => Packet.ack packet =? NodeState.seq server
  | ConnectionState.ESTABLISHED, PacketFlag.DATA => true
  | ConnectionState.ESTABLISHED, PacketFlag.FIN => true
  | _, PacketFlag.RST => true
  | _, _ => false
  end.

Definition spec_client_row (client : NodeState.t) (packet : Packet.t) : bool :=
  match NodeState.connectionState client, Packet.flag packet with
  | ConnectionState.SYN_SENT, PacketFlag.SYN_ACK => true
  | ConnectionState.ESTABLISHED, PacketFlag.ACK => true
  | _, _ => false
  end.

Definition spec_row (r : Render.t) (packet : Packet.t) : bool :=
  match Packet.destination packet with
  | SERVER => spec_server_row (Render.server r) packet
  | CLIENT => spec_client_row (Render.client r) packet
  end.

(** The node of a role in a render, and the other role. *)
Definition node (ro : Role) (r : Render.t) : NodeState.t :=
  match ro with CLIENT => Render.client r | SERVER => Render.server r end.
Definition peer (ro : Role) : Role :=
  match ro with CLIENT => SERVER | SERVER => CLIENT end.

(** The log entry [addLog] appends on arrival (line 116). *)
Definition received_entry (env : Env) (w : World) (packet : Packet.t) : LogEntry.t :=
  LogEntry.mk (random_id env (draws w)) (time_string env (S (draws w)))
    ("Received " ++ PacketFlag.toString (Packet.flag packet)
       ++ " (Seq=" ++ Number_toString (Packet.seq packet) ++ ")")
    LogEntry.traffic.

(** The log entry [handleDropPacket] appends for a lost packet (line 98). *)
Definition loss_entry (env : Env) (w : World) (pkt : Packet.t) : LogEntry.t :=
  LogEntry.mk (random_id env (draws w)) (time_string env (S (draws w)))
    ("Packet " ++ PacketFlag.toString (Packet.flag pkt) ++ " lost/dropped in transit!")
    LogEntry.error.

(** *** Properties of runs *)

(** A computation is stable for a relation on worlds when every world is
    related to the one it leaves behind. *)
Definition stable {A} (R : World -> World -> Prop) (m : M A) : Prop :=
  forall w, R w (exec m w).

(** Neither sequence counter goes down, and the oracle only moves on. *)
Definition grows (w w' : World) : Prop :=
  NodeState.seq (Render.client (store w)) <= NodeState.seq (Render.client (store w'))
  /\ NodeState.seq (Render.server (store w)) <= NodeState.seq (Render.server (store w'))
  /\ (draws w <= draws w')%nat.

Definition in_flight (k : string) (w : World) : bool :=
  match find_id k (Render.packets (store w)) with Some _ => true | None => false end.

(** No packet id drawn from the n-th oracle call on equals [k]. *)
Definition fresh_from (env : Env) (k : string) (n : nat) : Prop :=
  forall i, (n <= i)%nat -> random_id env i <> k.

(** An id that has left the network stays out of it, as long as the
    oracle does not hand it out again. *)
Definition stays_absent (env : Env) (k : string) (w w' : World) : Prop :=
  (draws w <= draws w')%nat
  /\ (fresh_from env k (draws w) -> in_flight k w = false -> in_flight k w' = false).

(** The network holds the same packets. *)
Definition packets_kept (w w' : World) : Prop :=
  Render.packets (store w') = Render.packets (store w).

(** Both nodes keep their role. *)
Definition roles_kept (w w' : World) : Prop :=
  NodeState.role (Render.client (store w')) = NodeState.role (Render.client (store w))
  /\ NodeState.role (Render.server (store w')) = NodeState.role (Render.server (store w)).

(** The callbacks the component can have pending when only the client's
    buttons send packets: arrivals of packets addressed to the server, and
    the empty responder. *)
Definition timer_ok (t : Timer) : Prop :=
  match callback t with
  | arrival r p => roles_ok r /\ Packet.destination p = SERVER
  | responder_stub => True
  | _ => False
  end.

Definition never_connected (w : World) : Prop :=
  roles_ok (store w)
  /\ NodeState.connectionState (Render.client (store w)) <> ConnectionState.ESTABLISHED
  /\ Forall timer_ok (timers w).

(** The client's connection state and session are those of [w]. *)
Definition client_session_kept (w w' : World) : Prop :=
  NodeState.connectionState (Render.client (store w'))
    = NodeState.connectionState (Render.client (store w))
  /\ NodeState.sessionId (Render.client (store w'))
    = NodeState.sessionId (Render.client (store w)).

(** *** The re-binding announced at line 358

    [schedulePacketArrivalRef.current] is assigned but never called:
    [sendPacketWithSchedule] still schedules through
    [schedulePacketArrival].  [fire_rebound] runs a pending arrival the way
    the re-bound scheduler would have, through [handleArrival]; any other
    callback runs as it is.  It is not part of [step]. *)
Definition fire_rebound (env : Env) (n : nat) : M unit :=
  fun w =>
    match take_timer n (timers w) with
    | Some (t, rest) =>
        let w' := mkWorld (store w) rest (draws w) in
        match callback t with
        | arrival _ packet => run_arrival_ref env packet w'
        | cb => run_callback env cb w'
        end
    | None => (tt, w)
    end.

(** *** Concrete inputs *)

Definition demo_env : Env :=
  mkEnv (fun n => match n with O => "p0" | _ => "q" end)
        (fun _ => "AB12CD") (fun _ => 4711) (fun n => Z.of_nat n)
        (fun _ => "12:00:00") (fun _ => "Mock Secure Data Payload").

Definition established_client : NodeState.t :=
  NodeState.mk CLIENT ConnectionState.ESTABLISHED 101 5001 (Some "SES-AB12CD") [].
Definition established_server : NodeState.t :=
  NodeState.mk SERVER ConnectionState.ESTABLISHED 5001 101 (Some "SES-AB12CD") [].
Definition syn_rcvd_server : NodeState.t :=
  NodeState.mk SERVER ConnectionState.SYN_RCVD 5001 101 (Some "SES-AB12CD") [].
Definition demo_packet (flag : PacketFlag.t) (from : Role) (seq ack : Z) : Packet.t :=
  Packet.mk "k3x9" from (peer from) flag seq ack "" None 0.

(** Both ends established, one packet of the given flag on its way to the
    server. *)
Definition established_render (flag : PacketFlag.t) : Render.t :=
  Render.mk established_client established_server [demo_packet flag CLIENT 101 5001].
Definition established_world (flag : PacketFlag.t) : World :=
  mkWorld (established_render flag) [] 1.

(** The handshake half done: the final ACK on its way to the server. *)
Definition syn_rcvd_render : Render.t :=
  Render.mk established_client syn_rcvd_server [demo_packet PacketFlag.ACK CLIENT 101 5001].
Definition syn_rcvd_world : World := mkWorld syn_rcvd_render [] 1.


(** *** Further properties of runs *)

(** Each log only gets longer. *)
Definition logs_extend (w w' : World) : Prop :=
  (exists l, NodeState.logs (Render.client (store w'))
             = (NodeState.logs (Render.client (store w)) ++ l)%list)
  /\ (exists l, NodeState.logs (Render.server (store w'))
                = (NodeState.logs (Render.server (store w)) ++ l)%list).

(** The connection states an updater of the component can write: the
    client is only ever set to SYN_SENT, ESTABLISHED or CLOSED, the server
    to SYN_RCVD, ESTABLISHED or CLOSED. *)
Definition client_moves (pre post : ConnectionState.t) : Prop :=
  post = pre \/ post = ConnectionState.CLOSED \/ post = ConnectionState.SYN_SENT
  \/ post = ConnectionState.ESTABLISHED.
Definition server_moves (pre post : ConnectionState.t) : Prop :=
  post = pre \/ post = ConnectionState.SYN_RCVD \/ post = ConnectionState.ESTABLISHED
  \/ post = ConnectionState.CLOSED.
Definition moves (w w' : World) : Prop :=
  client_moves (NodeState.connectionState (Render.client (store w)))
               (NodeState.connectionState (Render.client (store w')))
  /\ server_moves (NodeState.connectionState (Render.server (store w)))
                  (NodeState.connectionState (Render.server (store w'))).

(** A packet addressed to the node that did not send it. *)
Definition crosses (p : Packet.t) : Prop := Packet.destination p = peer (Packet.source p).
Definition cross_kept (w w' : World) : Prop :=
  Forall crosses (Render.packets (store w)) -> Forall crosses (Render.packets (store w')).



(** What the buttons can put on the network: a SYN or a FIN from the
    client to the server. *)
Definition client_request (p : Packet.t) : Prop :=
  Packet.source p = CLIENT /\ Packet.destination p = SERVER
  /\ (Packet.flag p = PacketFlag.SYN \/ Packet.flag p = PacketFlag.FIN).

Definition waiting (server : NodeState.t) : Prop :=
  NodeState.connectionState server = ConnectionState.LISTEN
  \/ NodeState.connectionState server = ConnectionState.SYN_RCVD.

Definition timer_reachable (t : Timer) : Prop :=
  match callback t with
  | arrival r p => roles_ok r /\ client_request p /\ waiting (Render.server r)
  | responder_stub => True
  | _ => False
  end.

(** The shape of every world the component can get into from [initial]. *)
Definition reachable_shape (w : World) : Prop :=
  roles_ok (store w)
  /\ (NodeState.connectionState (Render.client (store w)) = ConnectionState.CLOSED
      \/ NodeState.connectionState (Render.client (store w)) = ConnectionState.SYN_SENT)
  /\ NodeState.sessionId (Render.client (store w)) = None
  /\ NodeState.lastAckReceived (Render.client (store w)) = 0
  /\ waiting (Render.server (store w))
  /\ NodeState.seq (Render.server (store w)) = INITIAL_SERVER_SEQ
  /\ Forall client_request (Render.packets (store w))
  /\ Forall timer_reachable (timers w).

(** Where the two arrival handlers part: an ACK in SYN_RCVD whose [ack] is
    not the server's [seq] (only lines 151 test it), and a FIN that finds
    the server outside ESTABLISHED (line 327 tests no state). *)
Definition handlers_differ (r : Render.t) (packet : Packet.t) : bool :=
  Role_eqb (Packet.destination packet) SERVER
  && ((ConnectionState.eqb (NodeState.connectionState (Render.server r))
                           ConnectionState.SYN_RCVD
       && PacketFlag.eqb (Packet.flag packet) PacketFlag.ACK
       && negb (Packet.ack packet =? NodeState.seq (Render.server r)))
      || (PacketFlag.eqb (Packet.flag packet) PacketFlag.FIN
          && negb (ConnectionState.eqb (NodeState.connectionState (Render.server r))
                                       ConnectionState.ESTABLISHED))).

(** The packets in flight are in sending order, each with a higher [seq]
    than the one before, all from [INITIAL_SEQ] up to just below the
    client's [seq]. *)
Definition seqs_ascend (w : World) : Prop :=
  StronglySorted (fun p q => Packet.seq p < Packet.seq q) (Render.packets (store w))
  /\ Forall (fun p => INITIAL_SEQ <= Packet.seq p
                      < NodeState.seq (Render.client (store w)))
            (Render.packets (store w)).

(** ** services/geminiService

    The annotation service.  What lies outside the repository is taken as
    a parameter: the environment variable, the remote model and
    [String.prototype.trim]. *)

(** What [ai.models.generateContent] comes to: the call throws or its
    promise is rejected, or it resolves to a response whose [text] may be
    undefined. *)
Inductive Generation := failed | response (text : option string).

Definition ConnectionState_toString (c : ConnectionState.t) : string :=
  match c with
  | ConnectionState.CLOSED => "CLOSED" | ConnectionState.LISTEN => "LISTEN"
  | ConnectionState.SYN_SENT => "SYN_SENT" | ConnectionState.SYN_RCVD => "SYN_RCVD"
  | ConnectionState.ESTABLISHED => "ESTABLISHED" | ConnectionState.FIN_WAIT => "FIN_WAIT"
  end.

Definition newline : string := String "010"%char EmptyString.
Definition quote : string := String "034"%char EmptyString.

(** The template literal of lines 135-147. *)
Definition analysis_prompt (packet : Packet.t) (state : ConnectionState.t) : string :=
  newline
  ++ "    You are a network security expert analyzing a custom UDP transport protocol."
  ++ newline
  ++ "    Analyze this packet in the context of the connection state: "
  ++ quote ++ ConnectionState_toString state ++ quote ++ "." ++ newline
  ++ "    " ++ newline
  ++ "    Packet Details:" ++ newline
  ++ "    - Flag: " ++ PacketFlag.toString (Packet.flag packet) ++ newline
  ++ "    - Sequence: " ++ Number_toString (Packet.seq packet) ++ newline
  ++ "    - Ack: " ++ Number_toString (Packet.ack packet) ++ newline
  ++ "    - Payload: " ++ quote ++ Packet.payload packet ++ quote ++ newline
  ++ "    - SessionID: "
  ++ match or_nothing (Packet.sessionId packet) with Some s => s | None => "None" end
  ++ newline ++ newline
  ++ "    Explain briefly (max 2 sentences) what this packet does in the handshake or data transfer process and if it looks valid."
  ++ newline ++ "  ".

Definition payload_request : string :=
  "Generate a short, hex-encoded string representing a secure encrypted payload (e.g. '0x4A...'). Max 20 chars.".

Section GeminiService.

Variable API_KEY : option string.                        (* process.env.API_KEY *)
Variable generateContent : string -> string -> Generation. (* model, contents *)
Variable trim : string -> string.                         (* String.prototype.trim *)

(** Line 123. *)
Definition apiKey : string :=
  match or_nothing API_KEY with Some k => k | None => "" end.

(** Lines 126-129: [true] stands for a client, [false] for [null]. *)
Definition getAiClient : bool := negb (String.eqb apiKey "").

(** Lines 131-159. *)
Definition analyzePacket (packet : Packet.t) (state : ConnectionState.t) : string :=
  if negb getAiClient then "API Key not configured. Cannot analyze packet."
  else
    match generateContent "gemini-3-flash-preview" (analysis_prompt packet state) with
    | response text =>
        match or_nothing text with Some s => s | None => "No analysis available." end
    | failed => "Analysis failed due to network error."
    end.

(** Lines 161-174. *)
Definition generateSecurePayload : string :=
  if negb getAiClient then "Mock Secure Data Payload"
  else
    match generateContent "gemini-3-flash-preview" payload_request with
    | response text =>
        match or_nothing (option_map trim text) with
        | Some s => s
        | None => "0xDEADBEEF"
        end
    | failed => "0xCAFEBABE"
    end.

End GeminiService.

(** ** Basic facts *)

Lemma find_id_remove_id id l : find_id id (remove_id id l) = None.
Proof.
  unfold find_id, remove_id.
  induction l as [|p l IH]; simpl; [reflexivity|].
  destruct (String.eqb (Packet.id p) id) eqn:E; simpl; [exact IH|].
  rewrite E. exact IH.
Qed.

Lemma remove_id_absent id l : find_id id l = None -> remove_id id l = l.
Proof.
  unfold find_id, remove_id.
  induction l as [|p l IH]; simpl; [reflexivity|].
  destruct (String.eqb (Packet.id p) id) eqn:E; simpl; [discriminate|].
  intros H. now rewrite IH.
Qed.

Lemma find_id_remove_other id k l :
  find_id k l = None -> find_id k (remove_id id l) = None.
Proof.
  unfold find_id, remove_id.
  induction l as [|p l IH]; simpl; [reflexivity|].
  destruct (String.eqb (Packet.id p) k) eqn:E; [discriminate|].
  intros H. destruct (String.eqb (Packet.id p) id); simpl; [auto|].
  rewrite E. auto.
Qed.

Lemma find_id_app_one k l p :
  find_id k l = None -> Packet.id p <> k -> find_id k (l ++ [p]) = None.
Proof.
  unfold find_id. intros H Hp.
  induction l as [|q l IH]; simpl in *.
  - apply String.eqb_neq in Hp. now rewrite Hp.
  - destruct (String.eqb (Packet.id q) k); [discriminate|auto].
Qed.

Lemma exec_bind {A B} (m : M A) (k : A -> M B) w :
  exec (m' <- m ;; k m') w = exec (k (result m w)) (exec m w).
Proof. unfold exec, result, bind. destruct (m w); reflexivity. Qed.

Lemma result_bind {A B} (m : M A) (k : A -> M B) w :
  result (m' <- m ;; k m') w = result (k (result m w)) (exec m w).
Proof. unfold exec, result, bind. destruct (m w); reflexivity. Qed.

Lemma fire_idle env n w : timers w = [] -> exec (fire env n) w = w.
Proof. intros H. unfold exec, fire. rewrite H. destruct n; reflexivity. Qed.

Lemma run_fire_idle env ns w :
  timers w = [] -> exec (run env (map Fire ns)) w = w.
Proof.
  intros H. induction ns as [|n ns IH]; [reflexivity|].
  simpl map. simpl run. rewrite exec_bind. simpl step.
  rewrite (fire_idle env n w H). exact IH.
Qed.

(** *** The arrival timer *)

Lemma setPackets_same w :
  exec (setPackets (fun _ => Render.packets (store w))) w = w.
Proof. destruct w as [[c s ps] t d]. reflexivity. Qed.

Lemma setPackets_store f w :
  store (exec (setPackets f) w)
  = Render.mk (Render.client (store w)) (Render.server (store w))
              (f (Render.packets (store w))).
Proof. reflexivity. Qed.

Lemma setPackets_timers f w : timers (exec (setPackets f) w) = timers w.
Proof. reflexivity. Qed.

(** The arrival of a packet leaves the array of packets as it found it,
    whether the packet is in it or not. *)
Lemma run_arrival_packets env r p w :
  Render.packets (store (exec (run_arrival env r p) w)) = Render.packets (store w).
Proof. unfold run_arrival. rewrite !exec_bind. reflexivity. Qed.

Lemma run_arrival_ref_packets env p w :
  Render.packets (store (exec (run_arrival_ref env p) w)) = Render.packets (store w).
Proof. unfold run_arrival_ref. rewrite !exec_bind. reflexivity. Qed.

(** A packet that is in the array is handed to the handler; the handler's
    filter is then undone. *)
Lemma run_arrival_found env r p w :
  in_flight (Packet.id p) w = true ->
  exec (run_arrival env r p) w
  = exec (setPackets (fun _ => Render.packets (store w)))
         (exec (processPacketArrival env r p) w).
Proof.
  unfold in_flight. intros H. unfold run_arrival. rewrite !exec_bind. cbv zeta.
  change (result latest_render w) with (store w).
  change (exec latest_render w) with w.
  destruct (find_id (Packet.id p) (Render.packets (store w))); [reflexivity|discriminate].
Qed.

Lemma run_arrival_ref_found env p w :
  in_flight (Packet.id p) w = true ->
  exec (run_arrival_ref env p) w
  = exec (setPackets (fun _ => Render.packets (store w)))
         (exec (processPacketArrivalRef_current env (store w) p) w).
Proof.
  unfold in_flight. intros H. unfold run_arrival_ref. rewrite !exec_bind. cbv zeta.
  change (result latest_render w) with (store w).
  change (exec latest_render w) with w.
  destruct (find_id (Packet.id p) (Render.packets (store w))); [|discriminate].
  unfold handleArrival. rewrite exec_bind. reflexivity.
Qed.

Lemma run_arrival_ref_absent env p w :
  in_flight (Packet.id p) w = false -> exec (run_arrival_ref env p) w = w.
Proof.
  unfold in_flight. intros H. unfold run_arrival_ref. rewrite !exec_bind. cbv zeta.
  change (result latest_render w) with (store w).
  change (exec latest_render w) with w.
  destruct (find_id (Packet.id p) (Render.packets (store w))); [discriminate|].
  apply setPackets_same.
Qed.

(** Once its id is out of the network, the arrival of a packet does
    nothing at all. *)
Lemma run_arrival_absent env r p w :
  in_flight (Packet.id p) w = false -> exec (run_arrival env r p) w = w.
Proof.
  unfold in_flight. intros H. unfold run_arrival. rewrite !exec_bind. cbv zeta.
  change (result latest_render w) with (store w).
  change (exec latest_render w) with w.
  destruct (find_id (Packet.id p) (Render.packets (store w))); [discriminate|].
  apply setPackets_same.
Qed.

(** ** Evaluating the handlers *)

Ltac js_unfold :=
  cbv beta iota zeta delta
    [exec result bind ret when fire fire_rebound step run run_callback
     run_arrival run_arrival_ref handleArrival latest_render
     handleConnect handleDisconnect handleSendData handleDropPacket
     sendPacketWithSchedule sendPacket schedulePacketArrival
     schedulePacketArrivalRef_current processPacketArrival
     processPacketArrivalRef_current addLog advance_sender advances_seq
     newPacket setClient setServer setPackets setTimeout oracle take_timer
     find_id remove_id find filter app Role_eqb ConnectionState.eqb PacketFlag.eqb
     orb andb negb fst snd node peer in_flight or_nothing
     same_protocol_fields client_session_kept received_entry loss_entry
     handlers_differ
     store timers draws callback delay
     Render.client Render.server Render.packets
     NodeState.role NodeState.connectionState NodeState.seq
     NodeState.lastAckReceived NodeState.sessionId NodeState.logs
     NodeState.with_logs NodeState.with_seq NodeState.with_connectionState
     NodeState.with_lastAckReceived NodeState.with_sessionId
     Packet.id Packet.source Packet.destination Packet.flag Packet.seq
     Packet.ack Packet.payload Packet.sessionId Packet.timestamp
     initial initial_client initial_server INITIAL_SEQ INITIAL_SERVER_SEQ].

Ltac js_eval := repeat (progress (js_unfold; rewrite ?String.eqb_refl)).

Ltac conj_split := repeat match goal with |- _ /\ _ => split end.

(** The ids of two packets drawn at different times cannot be compared by
    evaluation; where a lookup in the array of packets meets one, both
    answers are followed. *)
Ltac js_cases :=
  repeat match goal with
  | |- context [String.eqb ?a ?b] => destruct (String.eqb a b)
  end.

(** Run a sequence of steps from a known world, one step at a time. *)
Ltac eval_innermost :=
  match goal with
  | |- context [exec ?m (mkWorld ?s ?t ?d)] =>
      let v := fresh "v" in
      let E := fresh "E" in
      evar (v : World);
      assert (E : exec m (mkWorld s t d) = v)
        by (js_eval; js_cases; js_eval; subst v; reflexivity);
      subst v; rewrite E; clear E
  end.

Ltac js_seq := rewrite ?exec_bind; cbv beta; unfold initial; repeat eval_innermost.

(** Open the records of a render, a world and a packet. *)
Ltac open_render r :=
  let c := fresh "client" in
  let s := fresh "server" in
  let ps := fresh "packets" in
  destruct r as [c s ps]; destruct c, s.

Ltac open_world w :=
  let st := fresh "st" in
  let ts := fresh "ts" in
  let d := fresh "d" in
  destruct w as [st ts d]; open_render st.

(** ** The handshake *)

(** C1.  The execution the claim describes does not exist in the component.
    From the initial state, [connect()] followed by the arrival of the SYN
    leaves the client in SYN_SENT without a session and the server in
    SYN_RCVD.  The network holds the SYN, which its arrival has left in the
    array, and nothing else: no SYN-ACK has been built.  No callback is
    left pending, and letting timers fire changes nothing any more. *)
Theorem handshake_stalls_after_syn env :
  let w := exec (run env [Connect; Fire 0; Fire 0]) initial in
  let syn := newPacket env (store initial) CLIENT PacketFlag.SYN "" None None 0 1 in
  NodeState.connectionState (Render.client (store w)) = ConnectionState.SYN_SENT
  /\ NodeState.sessionId (Render.client (store w)) = None
  /\ NodeState.connectionState (Render.server (store w)) = ConnectionState.SYN_RCVD
  /\ NodeState.sessionId (Render.server (store w)) = Some ("SES-" ++ random_session env 8)
  /\ NodeState.lastAckReceived (Render.server (store w)) = 101
  /\ Render.packets (store w) = [syn]
  /\ Packet.flag syn = PacketFlag.SYN
  /\ timers w = []
  /\ forall ns, exec (run env (map Fire ns)) w = w.
Proof.
  intros w syn.
  assert (Ht : timers w = []) by (subst w; simpl run; js_seq; reflexivity).
  conj_split; try (subst w syn; simpl run; js_seq; reflexivity).
  intros ns. apply run_fire_idle. exact Ht.
Qed.

(** Had arrivals gone through [handleArrival], as the comment at line 358
    announces, the three packets of the handshake would be exchanged and
    both ends would reach ESTABLISHED, but the SYN-ACK is built by the
    [sendPacketWithSchedule] of the render in which the server had no
    session yet: it carries no [sessionId], and the client ends without
    one.  The three packets are still in the array at the end. *)
Lemma rebound_handshake_loses_session env :
  let w := exec (step env Connect ;; fire_rebound env 0 ;; fire env 0 ;;
                 fire_rebound env 0 ;; fire env 0 ;; fire_rebound env 0) initial in
  NodeState.connectionState (Render.client (store w)) = ConnectionState.ESTABLISHED
  /\ NodeState.connectionState (Render.server (store w)) = ConnectionState.ESTABLISHED
  /\ NodeState.sessionId (Render.client (store w)) = None
  /\ NodeState.sessionId (Render.server (store w))
       = Some ("SES-" ++ Number_toString (random_floor env 6))
  /\ map Packet.flag (Render.packets (store w))
       = [PacketFlag.SYN; PacketFlag.SYN_ACK; PacketFlag.ACK]
  /\ timers w = [].
Proof.
  intros w. subst w. js_seq. conj_split; reflexivity.
Qed.




(** ** Arrival of a packet *)

(** The handler picks the row by the state of the render it was created
    in.  A SYN, SYN-ACK or DATA packet that matches a row there sets the
    receiver's [lastAckReceived] to the packet's [seq] plus one.  A FIN
    that matches its row there closes the server and leaves
    [lastAckReceived] as it was. *)
Lemma lastAckReceived_by_render_row env r w packet :
  roles_ok r ->
  spec_row r packet = true ->
  let w' := exec (processPacketArrival env r packet) w in
  (Packet.flag packet = PacketFlag.SYN \/ Packet.flag packet = PacketFlag.SYN_ACK
   \/ Packet.flag packet = PacketFlag.DATA ->
   NodeState.lastAckReceived (node (Packet.destination packet) (store w'))
     = Packet.seq packet + 1)
  /\ (Packet.flag packet = PacketFlag.FIN ->
      NodeState.connectionState (Render.server (store w')) = ConnectionState.CLOSED
      /\ NodeState.lastAckReceived (node (Packet.destination packet) (store w'))
         = NodeState.lastAckReceived (node (Packet.destination packet) (store w))).
Proof.
  intros [Hc Hs] Hrow.
  open_render r. open_world w. destruct packet as [id src dst flag sq ak pl ses ts'].
  simpl in Hc, Hs. subst.
  unfold spec_row, spec_server_row, spec_client_row in Hrow. simpl in Hrow.
  destruct dst, flag; try discriminate Hrow;
    match goal with
    | H : context [match ?c with ConnectionState.CLOSED => _ | _ => _ end] |- _ =>
        destruct c; try discriminate H
    end;
    js_eval; split; intros H; try reflexivity;
    try (destruct H as [H|[H|H]]; discriminate H);
    try discriminate H; split; reflexivity.
Qed.

(** C3, as the code has it.  Take a delivery in which the render of the
    handler shows the receiver in the connection state it is in when the
    packet arrives.  A SYN, SYN-ACK or DATA packet that matches a row of
    the table in that state sets the receiver's [lastAckReceived] to the
    packet's [seq] plus one.  A FIN that matches its row closes the server
    and leaves [lastAckReceived] as it was. *)
Theorem lastAckReceived_after_accepted env r w packet :
  roles_ok r ->
  NodeState.connectionState (node (Packet.destination packet) r)
    = NodeState.connectionState (node (Packet.destination packet) (store w)) ->
  spec_row (store w) packet = true ->
  let w' := exec (processPacketArrival env r packet) w in
  (Packet.flag packet = PacketFlag.SYN \/ Packet.flag packet = PacketFlag.SYN_ACK
   \/ Packet.flag packet = PacketFlag.DATA ->
   NodeState.lastAckReceived (node (Packet.destination packet) (store w'))
     = Packet.seq packet + 1)
  /\ (Packet.flag packet = PacketFlag.FIN ->
      NodeState.connectionState (Render.server (store w')) = ConnectionState.CLOSED
      /\ NodeState.lastAckReceived (node (Packet.destination packet) (store w'))
         = NodeState.lastAckReceived (node (Packet.destination packet) (store w))).
Proof.
  intros Hroles Hst Hrow.
  assert (Hflag : Packet.flag packet = PacketFlag.SYN
                  \/ Packet.flag packet = PacketFlag.SYN_ACK
                  \/ Packet.flag packet = PacketFlag.DATA
                  \/ Packet.flag packet = PacketFlag.FIN
                  -> spec_row r packet = true).
  { intros Hf. revert Hrow. unfold spec_row, spec_server_row, spec_client_row.
    destruct (Packet.destination packet); cbn [node] in Hst; rewrite Hst;
      destruct Hf as [Hf|[Hf|[Hf|Hf]]]; rewrite Hf; auto. }
  split.
  - intros Hf.
    apply (lastAckReceived_by_render_row env r w packet Hroles); [|exact Hf].
    apply Hflag. tauto.
  - intros Hf.
    apply (lastAckReceived_by_render_row env r w packet Hroles); [|exact Hf].
    apply Hflag. tauto.
Qed.

Lemma lastAckReceived_after_accepted_witness :
  NodeState.lastAckReceived
    (node SERVER
       (store (exec (processPacketArrival demo_env (established_render PacketFlag.DATA)
                       (demo_packet PacketFlag.DATA CLIENT 101 5001))
                    (established_world PacketFlag.DATA))))
  = 101 + 1.
Proof.
  apply (lastAckReceived_after_accepted demo_env (established_render PacketFlag.DATA)
           (established_world PacketFlag.DATA) (demo_packet PacketFlag.DATA CLIENT 101 5001)).
  - split; reflexivity.
  - reflexivity.
  - reflexivity.
  - right; right; reflexivity.
Defined.

(** C3 as stated fails for FIN: an established server that receives a FIN
    carrying [seq = 101], from a handler whose render shows it established,
    takes the transition of its row (it closes), and its [lastAckReceived]
    stays at 101 instead of becoming 102. *)
Lemma fin_keeps_lastAckReceived :
  spec_row (established_render PacketFlag.FIN) (demo_packet PacketFlag.FIN CLIENT 101 5001)
    = true
  /\ NodeState.connectionState
       (Render.server
          (store (exec (processPacketArrival demo_env (established_render PacketFlag.FIN)
                          (demo_packet PacketFlag.FIN CLIENT 101 5001))
                       (established_world PacketFlag.FIN))))
     = ConnectionState.CLOSED
  /\ NodeState.lastAckReceived
       (Render.server
          (store (exec (processPacketArrival demo_env (established_render PacketFlag.FIN)
                          (demo_packet PacketFlag.FIN CLIENT 101 5001))
                       (established_world PacketFlag.FIN))))
     <> Packet.seq (demo_packet PacketFlag.FIN CLIENT 101 5001) + 1.
Proof.
  split; [reflexivity|]. split; [reflexivity|].
  vm_compute. discriminate.
Qed.


(** C4, as the code has it.  No branch of the handler tests for RST.  The
    handler, called on a RST for the server, whatever the server's state,
    leaves its connection state, counters and session untouched; its
    filter of line 111 takes the packet out of the array it is applied to,
    one traffic entry is logged on the server, the client is not touched
    and nothing is scheduled. *)
Theorem rst_is_ignored env r w packet :
  roles_ok r ->
  Packet.destination packet = SERVER ->
  Packet.flag packet = PacketFlag.RST ->
  let w' := exec (processPacketArrival env r packet) w in
  same_protocol_fields (Render.server (store w')) (Render.server (store w))
  /\ NodeState.logs (Render.server (store w'))
     = (NodeState.logs (Render.server (store w)) ++ [received_entry env w packet])%list
  /\ Render.client (store w') = Render.client (store w)
  /\ Render.packets (store w') = remove_id (Packet.id packet) (Render.packets (store w))
  /\ timers w' = timers w.
Proof.
  intros [Hc Hs] Hdst Hflag.
  open_render r. open_world w. destruct packet as [id src dst flag sq ak pl ses ts'].
  simpl in Hc, Hs, Hdst, Hflag. subst.
  destruct connectionState0; js_eval; conj_split; reflexivity.
Qed.

Lemma rst_is_ignored_witness :
  same_protocol_fields
    (Render.server
       (store (exec (processPacketArrival demo_env (established_render PacketFlag.RST)
                       (demo_packet PacketFlag.RST CLIENT 101 5001))
                    (established_world PacketFlag.RST))))
    (Render.server (store (established_world PacketFlag.RST))).
Proof.
  apply (rst_is_ignored demo_env (established_render PacketFlag.RST)
           (established_world PacketFlag.RST) (demo_packet PacketFlag.RST CLIENT 101 5001)).
  - split; reflexivity.
  - reflexivity.
  - reflexivity.
Defined.

(** C4 as stated fails: an established server with a session that receives
    a RST is still established and still has its session. *)
Lemma rst_leaves_server_established :
  NodeState.connectionState
    (Render.server
       (store (exec (processPacketArrival demo_env (established_render PacketFlag.RST)
                       (demo_packet PacketFlag.RST CLIENT 101 5001))
                    (established_world PacketFlag.RST))))
    <> ConnectionState.CLOSED
  /\ NodeState.sessionId
       (Render.server
          (store (exec (processPacketArrival demo_env (established_render PacketFlag.RST)
                          (demo_packet PacketFlag.RST CLIENT 101 5001))
                       (established_world PacketFlag.RST))))
     <> None.
Proof.
  split; vm_compute; discriminate.
Qed.

(** A packet whose flag matches no row of the table in the receiver's
    state, as the render of the handler shows that state, is ignored: both
    nodes keep their connection state, counters and session, the
    receiver's log gains the one traffic entry, the other node is not
    touched, the handler's filter takes the packet out of the array, no
    packet is added to it and no callback is scheduled. *)
Lemma unmatched_packet_is_ignored env r w packet :
  roles_ok r ->
  spec_row r packet = false ->
  let w' := exec (processPacketArrival env r packet) w in
  let receiver := Packet.destination packet in
  same_protocol_fields (node receiver (store w')) (node receiver (store w))
  /\ NodeState.logs (node receiver (store w'))
     = (NodeState.logs (node receiver (store w)) ++ [received_entry env w packet])%list
  /\ node (peer receiver) (store w') = node (peer receiver) (store w)
  /\ Render.packets (store w') = remove_id (Packet.id packet) (Render.packets (store w))
  /\ timers w' = timers w.
Proof.
  intros [Hc Hs] Hrow.
  open_render r. open_world w. destruct packet as [id src dst flag sq ak pl ses ts'].
  simpl in Hc, Hs. subst.
  unfold spec_row, spec_server_row, spec_client_row in Hrow. simpl in Hrow.
  destruct dst, flag;
    match goal with
    | H : context [match ?c with ConnectionState.CLOSED => _ | _ => _ end] |- _ =>
        destruct c; try discriminate H
    end;
    js_eval; rewrite ?Hrow; js_eval; conj_split; reflexivity.
Qed.

(** C7.  A packet with no row in the receiver's state is not always
    ignored, because the handler reads the state of the render in which the
    packet was sent.  From the initial state, with every button enabled
    when it is clicked: connect, disconnect, connect again, then the three
    arrivals.  The second SYN was sent while the server was still in
    LISTEN; it arrives when the server is in SYN_RCVD, where a SYN has no
    row, and yet the server's [lastAckReceived] goes from 101 to 103 and
    its session is allocated anew. *)
Theorem stale_syn_rewrites_half_open_server env :
  let sent := exec (run env [Connect; Disconnect]) initial in
  let syn2 := newPacket env (store sent) CLIENT PacketFlag.SYN "" None None 8 9 in
  let before := exec (run env [Connect; Disconnect; Connect; Fire 0; Fire 0]) initial in
  let after := exec (step env (Fire 0)) before in
  timers before = [mkTimer (arrival (store sent) syn2) LATENCY_MS;
                   mkTimer responder_stub 100]
  /\ In syn2 (Render.packets (store before))
  /\ Packet.destination syn2 = SERVER
  /\ NodeState.connectionState (Render.server (store before)) = ConnectionState.SYN_RCVD
  /\ spec_row (store before) syn2 = false
  /\ NodeState.lastAckReceived (Render.server (store before)) = 101
  /\ NodeState.sessionId (Render.server (store before))
     = Some ("SES-" ++ random_session env 16)
  /\ NodeState.connectionState (Render.server (store after)) = ConnectionState.SYN_RCVD
  /\ NodeState.lastAckReceived (Render.server (store after)) = 103
  /\ NodeState.sessionId (Render.server (store after))
     = Some ("SES-" ++ random_session env 23)
  /\ ~ same_protocol_fields (Render.server (store after)) (Render.server (store before)).
Proof.
  intros sent syn2 before after. subst after before syn2 sent.
  simpl run. js_seq.
  conj_split; try reflexivity.
  - right; right; left; reflexivity.
  - intros (_ & _ & H & _). discriminate H.
Qed.

(** ** Relations kept by every computation of the component *)

Section Stable.

Variable R : World -> World -> Prop.
Hypothesis R_refl : forall w, R w w.
Hypothesis R_trans : forall a b c, R a b -> R b c -> R a c.
Hypothesis R_timers : forall s t t' d, R (mkWorld s t d) (mkWorld s t' d).

Lemma stable_ret {A} (a : A) : stable R (ret a).
Proof. intros w. apply R_refl. Qed.

Lemma stable_bind {A B} (m : M A) (k : A -> M B) :
  stable R m -> (forall a, stable R (k a)) -> stable R (bind m k).
Proof.
  intros Hm Hk w. rewrite exec_bind.
  eapply R_trans; [apply Hm | apply Hk].
Qed.

Lemma stable_when b m : stable R m -> stable R (when b m).
Proof. intros H. destruct b; simpl; [exact H | apply stable_ret]. Qed.

Lemma stable_if {A} (b : bool) (m1 m2 : M A) :
  stable R m1 -> stable R m2 -> stable R (if b then m1 else m2).
Proof. destruct b; auto. Qed.

Lemma stable_latest_render : stable R latest_render.
Proof. intros w. apply R_refl. Qed.

Lemma stable_setTimeout cb ms : stable R (setTimeout cb ms).
Proof. intros [s t d]. apply R_timers. Qed.

Lemma stable_fire env n :
  (forall cb, stable R (run_callback env cb)) -> stable R (fire env n).
Proof.
  intros H [s t d]. unfold exec, fire. simpl.
  destruct (take_timer n t) as [[x rest]|]; [|apply R_refl].
  eapply R_trans; [apply (R_timers s t rest d) | apply H].
Qed.

Lemma stable_run env :
  (forall e, stable R (step env e)) -> forall es, stable R (run env es).
Proof.
  intros H es. induction es as [|e es IH]; cbn [run].
  - apply stable_ret.
  - apply stable_bind; auto.
Qed.

End Stable.

(** Break a handler down to its state updates, following its syntax. *)
Ltac stable_step refl trans leaf :=
  lazymatch goal with
  | |- stable _ (ret _) => apply (stable_ret _ refl)
  | |- stable _ latest_render => apply (stable_latest_render _ refl)
  | |- stable _ (bind _ _) => apply (stable_bind _ trans); [ | intros ? ]
  | |- stable _ (when _ _) => apply (stable_when _ refl)
  | |- stable _ (if ?b then _ else _) => first [ apply stable_if | destruct b ]
  | |- stable _ (match ?x with Some _ => _ | None => _ end) => destruct x
  | |- _ => leaf
  end.

Ltac stable_split refl trans leaf := repeat (stable_step refl trans leaf).

(** *** Sequence numbers only go up *)

Lemma grows_refl w : grows w w.
Proof. unfold grows. repeat split; lia. Qed.

Lemma grows_trans a b c : grows a b -> grows b c -> grows a c.
Proof. unfold grows. intros (?&?&?) (?&?&?). repeat split; lia. Qed.

Lemma grows_timers s t t' d : grows (mkWorld s t d) (mkWorld s t' d).
Proof. unfold grows. simpl. repeat split; lia. Qed.

Lemma grows_setClient f :
  (forall c, NodeState.seq c <= NodeState.seq (f c)) -> stable grows (setClient f).
Proof. intros H w. unfold grows, exec. simpl. repeat split; try lia. apply H. Qed.

Lemma grows_setServer f :
  (forall c, NodeState.seq c <= NodeState.seq (f c)) -> stable grows (setServer f).
Proof. intros H w. unfold grows, exec. simpl. repeat split; try lia. apply H. Qed.

Lemma grows_setPackets f : stable grows (setPackets f).
Proof. intros w. unfold grows, exec. simpl. repeat split; lia. Qed.

Lemma grows_oracle : stable grows oracle.
Proof. intros w. unfold grows, exec. simpl. repeat split; lia. Qed.

Ltac grows_prim :=
  idtac;
  lazymatch goal with
  | |- stable _ (setClient _) => apply grows_setClient; intros ?; simpl; lia
  | |- stable _ (setServer _) => apply grows_setServer; intros ?; simpl; lia
  | |- stable _ (setPackets _) => apply grows_setPackets
  | |- stable _ (setTimeout _ _) => apply (stable_setTimeout _ grows_timers)
  | |- stable _ oracle => apply grows_oracle
  end.

Ltac grows_with leaf := stable_split grows_refl grows_trans leaf.

Lemma grows_addLog env role message type : stable grows (addLog env role message type).
Proof. unfold addLog. grows_with grows_prim. Qed.

Lemma grows_advance_sender from flag : stable grows (advance_sender from flag).
Proof. unfold advance_sender. grows_with grows_prim. Qed.

Ltac grows_leaf :=
  idtac;
  lazymatch goal with
  | |- stable _ (addLog _ _ _ _) => apply grows_addLog
  | |- stable _ (advance_sender _ _) => apply grows_advance_sender
  | |- _ => grows_prim
  end.

Lemma grows_sendPacketWithSchedule env r from flag payload os oa :
  stable grows (sendPacketWithSchedule env r from flag payload os oa).
Proof.
  unfold sendPacketWithSchedule, schedulePacketArrival. grows_with grows_leaf.
Qed.

Lemma grows_processPacketArrival env r packet :
  stable grows (processPacketArrival env r packet).
Proof. unfold processPacketArrival. cbv zeta. grows_with grows_leaf. Qed.

Lemma grows_processPacketArrivalRef_current env r packet :
  stable grows (processPacketArrivalRef_current env r packet).
Proof. unfold processPacketArrivalRef_current. cbv zeta. grows_with grows_leaf. Qed.

Lemma grows_handleDropPacket env r id : stable grows (handleDropPacket env r id).
Proof. unfold handleDropPacket. grows_with grows_leaf. Qed.

Ltac grows_handler :=
  idtac;
  lazymatch goal with
  | |- stable _ (sendPacketWithSchedule _ _ _ _ _ _ _) => apply grows_sendPacketWithSchedule
  | |- stable _ (processPacketArrival _ _ _) => apply grows_processPacketArrival
  | |- stable _ (processPacketArrivalRef_current _ _ _) =>
      apply grows_processPacketArrivalRef_current
  | |- stable _ (handleDropPacket _ _ _) => apply grows_handleDropPacket
  | |- _ => grows_leaf
  end.

Lemma grows_run_callback env cb : stable grows (run_callback env cb).
Proof.
  destruct cb; cbn [run_callback];
    unfold run_arrival, run_arrival_ref, handleArrival; grows_with grows_handler.
Qed.

Lemma grows_step env e : stable grows (step env e).
Proof.
  destruct e; cbn [step];
    unfold handleConnect, handleDisconnect, handleSendData;
    try (apply (stable_fire _ grows_refl grows_trans grows_timers);
         apply grows_run_callback);
    grows_with grows_handler.
Qed.

Lemma grows_run env es : stable grows (run env es).
Proof. apply (stable_run _ grows_refl grows_trans). apply grows_step. Qed.

(** *** What a send does *)

Lemma sendPacketWithSchedule_effect env r from flag payload os oa w :
  let p := newPacket env r from flag payload os oa (draws w) (S (draws w)) in
  let w' := exec (sendPacketWithSchedule env r from flag payload os oa) w in
  Render.packets (store w') = (Render.packets (store w) ++ [p])%list
  /\ timers w' = (timers w ++ [mkTimer (arrival r p) LATENCY_MS])%list
  /\ draws w' = (4 + draws w)%nat
  /\ NodeState.seq (node from (store w'))
     = NodeState.seq (node from (store w)) + (if advances_seq flag then 1 else 0)
  /\ NodeState.connectionState (node from (store w'))
     = NodeState.connectionState (node from (store w))
  /\ NodeState.sessionId (node from (store w')) = NodeState.sessionId (node from (store w))
  /\ NodeState.lastAckReceived (node from (store w'))
     = NodeState.lastAckReceived (node from (store w))
  /\ node (peer from) (store w') = node (peer from) (store w).
Proof.
  open_world w. destruct from, flag; js_eval; conj_split; try reflexivity; lia.
Qed.

Lemma sendPacket_effect env r from flag payload os oa w :
  let p := newPacket env r from flag payload os oa (draws w) (S (draws w)) in
  let w' := exec (sendPacket env r from flag payload os oa) w in
  Render.packets (store w') = (Render.packets (store w) ++ [p])%list
  /\ timers w' = timers w
  /\ draws w' = (4 + draws w)%nat
  /\ NodeState.seq (node from (store w'))
     = NodeState.seq (node from (store w)) + (if advances_seq flag then 1 else 0)
  /\ node (peer from) (store w') = node (peer from) (store w).
Proof.
  open_world w. destruct from, flag; js_eval; conj_split; try reflexivity; lia.
Qed.

(** *** A packet id that has left the network *)

Lemma absent_refl env k w : stays_absent env k w w.
Proof. unfold stays_absent. split; [lia | auto]. Qed.

Lemma fresh_from_le env k n m : (n <= m)%nat -> fresh_from env k n -> fresh_from env k m.
Proof. unfold fresh_from. intros Hle H i Hi. apply H. lia. Qed.

Lemma absent_trans env k a b c :
  stays_absent env k a b -> stays_absent env k b c -> stays_absent env k a c.
Proof.
  unfold stays_absent. intros [H1 H2] [H3 H4]. split; [lia|].
  intros Hf Ha. apply H4; [|auto]. eapply fresh_from_le; eauto.
Qed.

Lemma absent_timers env k s t t' d :
  stays_absent env k (mkWorld s t d) (mkWorld s t' d).
Proof. unfold stays_absent, in_flight. simpl. split; [lia | auto]. Qed.

Lemma absent_setClient env k f : stable (stays_absent env k) (setClient f).
Proof. intros w. unfold stays_absent, in_flight, exec. simpl. split; [lia | auto]. Qed.

Lemma absent_setServer env k f : stable (stays_absent env k) (setServer f).
Proof. intros w. unfold stays_absent, in_flight, exec. simpl. split; [lia | auto]. Qed.

Lemma absent_oracle env k : stable (stays_absent env k) oracle.
Proof. intros w. unfold stays_absent, in_flight, exec. simpl. split; [lia | auto]. Qed.

Lemma absent_remove env k id : stable (stays_absent env k) (setPackets (remove_id id)).
Proof.
  intros w. unfold stays_absent, in_flight, exec. simpl. split; [lia|].
  intros _ H. destruct (find_id k (Render.packets (store w))) eqn:E; [discriminate|].
  now rewrite (find_id_remove_other id k _ E).
Qed.

Lemma absent_sendPacketWithSchedule env k r from flag payload os oa :
  stable (stays_absent env k) (sendPacketWithSchedule env r from flag payload os oa).
Proof.
  intros w.
  destruct (sendPacketWithSchedule_effect env r from flag payload os oa w)
    as (Hp & _ & Hd & _).
  unfold stays_absent, in_flight. rewrite Hp, Hd. split; [lia|].
  intros Hf H. destruct (find_id k (Render.packets (store w))) eqn:E; [discriminate|].
  rewrite (find_id_app_one k _ _ E); [reflexivity|].
  apply Hf. simpl. lia.
Qed.

Ltac absent_prim :=
  idtac;
  lazymatch goal with
  | |- stable _ (setClient _) => apply absent_setClient
  | |- stable _ (setServer _) => apply absent_setServer
  | |- stable _ (setPackets (remove_id _)) => apply absent_remove
  | |- stable _ (setTimeout _ _) => apply (stable_setTimeout _ (absent_timers _ _))
  | |- stable _ oracle => apply absent_oracle
  | |- stable _ (sendPacketWithSchedule _ _ _ _ _ _ _) => apply absent_sendPacketWithSchedule
  end.

Ltac absent_with env k leaf :=
  stable_split (absent_refl env k) (absent_trans env k) leaf.

Lemma absent_addLog env k role message type :
  stable (stays_absent env k) (addLog env role message type).
Proof. unfold addLog. absent_with env k absent_prim. Qed.

Ltac absent_leaf :=
  idtac;
  lazymatch goal with
  | |- stable _ (addLog _ _ _ _) => apply absent_addLog
  | |- _ => absent_prim
  end.

Lemma absent_processPacketArrival env k r packet :
  stable (stays_absent env k) (processPacketArrival env r packet).
Proof. unfold processPacketArrival. cbv zeta. absent_with env k absent_leaf. Qed.

Lemma absent_processPacketArrivalRef_current env k r packet :
  stable (stays_absent env k) (processPacketArrivalRef_current env r packet).
Proof. unfold processPacketArrivalRef_current. cbv zeta. absent_with env k absent_leaf. Qed.

Lemma absent_handleDropPacket env k r id :
  stable (stays_absent env k) (handleDropPacket env r id).
Proof. unfold handleDropPacket. absent_with env k absent_leaf. Qed.

Ltac absent_handler :=
  idtac;
  lazymatch goal with
  | |- stable _ (processPacketArrival _ _ _) => apply absent_processPacketArrival
  | |- stable _ (processPacketArrivalRef_current _ _ _) =>
      apply absent_processPacketArrivalRef_current
  | |- stable _ (handleDropPacket _ _ _) => apply absent_handleDropPacket
  | |- _ => absent_leaf
  end.

Lemma absent_run_callback env k cb : stable (stays_absent env k) (run_callback env cb).
Proof.
  destruct cb; cbn [run_callback]; try (absent_with env k absent_handler).
  - intros w. split; [apply (grows_run_callback env (arrival r packet) w)|].
    unfold in_flight. rewrite run_arrival_packets. auto.
  - intros w. split; [apply (grows_run_callback env (arrival_ref packet) w)|].
    unfold in_flight. rewrite run_arrival_ref_packets. auto.
Qed.

Lemma absent_step env k e : stable (stays_absent env k) (step env e).
Proof.
  destruct e; cbn [step];
    unfold handleConnect, handleDisconnect, handleSendData;
    try (apply (stable_fire _ (absent_refl env k) (absent_trans env k) (absent_timers env k));
         apply absent_run_callback);
    absent_with env k absent_handler.
Qed.

Lemma absent_run env k es : stable (stays_absent env k) (run env es).
Proof.
  apply (stable_run _ (absent_refl env k) (absent_trans env k)). apply absent_step.
Qed.

(** *** The handler only ever takes its own packet off the network *)

Lemma kept_refl w : packets_kept w w.
Proof. reflexivity. Qed.

Lemma kept_trans a b c : packets_kept a b -> packets_kept b c -> packets_kept a c.
Proof. unfold packets_kept. congruence. Qed.

Lemma kept_timers s t t' d : packets_kept (mkWorld s t d) (mkWorld s t' d).
Proof. reflexivity. Qed.

Lemma kept_setClient f : stable packets_kept (setClient f).
Proof. intros w. reflexivity. Qed.

Lemma kept_setServer f : stable packets_kept (setServer f).
Proof. intros w. reflexivity. Qed.

Lemma kept_oracle : stable packets_kept oracle.
Proof. intros w. reflexivity. Qed.

Ltac kept_prim :=
  idtac;
  lazymatch goal with
  | |- stable _ (setClient _) => apply kept_setClient
  | |- stable _ (setServer _) => apply kept_setServer
  | |- stable _ (setTimeout _ _) => apply (stable_setTimeout _ kept_timers)
  | |- stable _ oracle => apply kept_oracle
  end.

Ltac kept_with leaf := stable_split kept_refl kept_trans leaf.

Lemma kept_addLog env role message type :
  stable packets_kept (addLog env role message type).
Proof. unfold addLog. kept_with kept_prim. Qed.

Ltac kept_leaf :=
  idtac;
  lazymatch goal with
  | |- stable _ (addLog _ _ _ _) => apply kept_addLog
  | |- _ => kept_prim
  end.

Lemma processPacketArrival_packets env r p w :
  Render.packets (store (exec (processPacketArrival env r p) w))
  = remove_id (Packet.id p) (Render.packets (store w)).
Proof.
  unfold processPacketArrival. cbv zeta. rewrite exec_bind. cbv beta.
  match goal with
  | |- Render.packets (store (exec ?rest ?w1)) = _ =>
      assert (H : stable packets_kept rest) by kept_with kept_leaf;
      rewrite (H w1)
  end.
  reflexivity.
Qed.

Lemma processPacketArrivalRef_current_packets env r p w :
  Render.packets (store (exec (processPacketArrivalRef_current env r p) w))
  = remove_id (Packet.id p) (Render.packets (store w)).
Proof.
  unfold processPacketArrivalRef_current. cbv zeta. rewrite exec_bind. cbv beta.
  match goal with
  | |- Render.packets (store (exec ?rest ?w1)) = _ =>
      assert (H : stable packets_kept rest) by kept_with kept_leaf;
      rewrite (H w1)
  end.
  reflexivity.
Qed.

(** *** What a drop does *)

Lemma handleDropPacket_packets env r id w :
  Render.packets (store (exec (handleDropPacket env r id) w))
  = remove_id id (Render.packets (store w)).
Proof.
  unfold handleDropPacket. rewrite exec_bind. cbv beta.
  match goal with
  | |- Render.packets (store (exec ?rest ?w1)) = _ =>
      assert (H : stable packets_kept rest) by kept_with kept_leaf;
      rewrite (H w1)
  end.
  reflexivity.
Qed.

Lemma handleDropPacket_found env r id w pkt :
  find_id id (Render.packets r) = Some pkt ->
  let w' := exec (handleDropPacket env r id) w in
  NodeState.logs (node (Packet.source pkt) (store w'))
    = (NodeState.logs (node (Packet.source pkt) (store w)) ++ [loss_entry env w pkt])%list
  /\ same_protocol_fields (node (Packet.source pkt) (store w'))
       (node (Packet.source pkt) (store w))
  /\ node (peer (Packet.source pkt)) (store w') = node (peer (Packet.source pkt)) (store w)
  /\ timers w' = timers w.
Proof.
  intros F. unfold handleDropPacket. rewrite F.
  open_world w. destruct (Packet.source pkt); js_eval; conj_split; reflexivity.
Qed.

Lemma handleDropPacket_unknown env r id w :
  find_id id (Render.packets r) = None ->
  find_id id (Render.packets (store w)) = None ->
  exec (handleDropPacket env r id) w = w.
Proof.
  intros F G. unfold handleDropPacket. rewrite F.
  unfold exec, bind, ret, setPackets. simpl.
  rewrite (remove_id_absent _ _ G). destruct w as [[c s ps] t d]. reflexivity.
Qed.

Lemma handleDropPacket_result env r id w :
  result (handleDropPacket env r id) w = undefined.
Proof.
  unfold handleDropPacket. rewrite !result_bind. reflexivity.
Qed.

Lemma in_flight_after_drop env r id w :
  in_flight id (exec (handleDropPacket env r id) w) = false.
Proof.
  unfold in_flight. now rewrite handleDropPacket_packets, find_id_remove_id.
Qed.

Lemma handleDropPacket_keeps_client_session env r id w :
  client_session_kept w (exec (handleDropPacket env r id) w).
Proof.
  destruct (find_id id (Render.packets r)) as [pkt|] eqn:F.
  - destruct (handleDropPacket_found env r id w pkt F) as (_ & Hs & Hp & _).
    unfold client_session_kept. destruct (Packet.source pkt); simpl in Hs, Hp.
    + destruct Hs as (? & _ & _ & ?). auto.
    + rewrite Hp. auto.
  - unfold handleDropPacket. rewrite F. open_world w. js_eval. split; reflexivity.
Qed.

(** *** A packet for the server does not touch the client *)

Lemma processPacketArrival_to_server env r p w :
  roles_ok r ->
  Packet.destination p = SERVER ->
  Render.client (store (exec (processPacketArrival env r p) w)) = Render.client (store w).
Proof.
  intros [Hc Hs] Hd.
  open_render r. open_world w. destruct p as [id src dst flag sq ak pl ses ts'].
  simpl in Hc, Hs, Hd. subst.
  destruct connectionState0, flag; js_eval; try reflexivity;
    destruct (ak =? seq0); reflexivity.
Qed.

Lemma run_arrival_to_server env r p w :
  roles_ok r ->
  Packet.destination p = SERVER ->
  Render.client (store (exec (run_arrival env r p) w)) = Render.client (store w).
Proof.
  intros Hr Hd.
  destruct (in_flight (Packet.id p) w) eqn:E.
  - rewrite run_arrival_found by exact E.
    exact (processPacketArrival_to_server env r p w Hr Hd).
  - now rewrite run_arrival_absent.
Qed.

(** *** The arrival is logged first *)

Lemma processPacketArrival_logs env r p w :
  roles_ok r ->
  exists l,
    NodeState.logs (node (Packet.destination p) (store (exec (processPacketArrival env r p) w)))
    = ((NodeState.logs (node (Packet.destination p) (store w)) ++ [received_entry env w p])
       ++ l)%list.
Proof.
  intros [Hc Hs].
  open_render r. open_world w. destruct p as [id src dst flag sq ak pl ses ts'].
  simpl in Hc, Hs. subst.
  destruct dst.
  - destruct connectionState, flag; js_eval;
      first [ eexists; reflexivity | exists []; symmetry; apply app_nil_r ].
  - destruct connectionState0, flag; js_eval; try destruct (ak =? seq0);
      first [ eexists; reflexivity | exists []; symmetry; apply app_nil_r ].
Qed.

(** *** What [disconnect()] does, whatever the client's state *)

Lemma handleDisconnect_effect env r w :
  let fin := newPacket env r CLIENT PacketFlag.FIN "" None None (draws w) (S (draws w)) in
  let w' := exec (handleDisconnect env r) w in
  Render.packets (store w') = (Render.packets (store w) ++ [fin])%list
  /\ timers w' = (timers w ++ [mkTimer (arrival r fin) LATENCY_MS])%list
  /\ NodeState.seq (Render.client (store w')) = NodeState.seq (Render.client (store w)) + 1
  /\ NodeState.connectionState (Render.client (store w')) = ConnectionState.CLOSED
  /\ NodeState.sessionId (Render.client (store w')) = None
  /\ Render.server (store w') = Render.server (store w).
Proof.
  open_world w. js_eval. conj_split; reflexivity.
Qed.

(** ** The network: delivery and loss *)

(** C5.  Delivery does not take the packet off the network.  The updater
    of the arrival timer returns the array it was given, so after the
    arrival of a packet that was in flight the array is what it was and the
    packet is still in it.  Running the arrival callback a second time
    finds it there and calls the handler again: the receiver's log gets a
    second entry for the same packet, and the world is not the one the
    first arrival left.  A dropped packet, on the other hand, is out of the
    array, and its arrival callback leaves the world as it is, straight
    away or after any run in which the oracle does not hand the same id out
    again. *)
Theorem delivery_keeps_packet_in_flight env r r' rd p w es :
  roles_ok r' ->
  in_flight (Packet.id p) w = true ->
  let delivered := exec (run_arrival env r p) w in
  let again := exec (run_arrival env r' p) delivered in
  let dropped := exec (handleDropPacket env rd (Packet.id p)) w in
  let receiver := Packet.destination p in
  Render.packets (store delivered) = Render.packets (store w)
  /\ in_flight (Packet.id p) delivered = true
  /\ (exists l, NodeState.logs (node receiver (store again))
                = ((NodeState.logs (node receiver (store delivered))
                    ++ [received_entry env delivered p]) ++ l)%list)
  /\ again <> delivered
  /\ in_flight (Packet.id p) dropped = false
  /\ exec (run_arrival env r' p) dropped = dropped
  /\ (fresh_from env (Packet.id p) (draws dropped) ->
      exec (run_arrival env r' p) (exec (run env es) dropped) = exec (run env es) dropped).
Proof.
  intros Hr Hin delivered again dropped receiver.
  assert (Hp : Render.packets (store delivered) = Render.packets (store w))
    by apply run_arrival_packets.
  assert (Hd : in_flight (Packet.id p) delivered = true)
    by (unfold in_flight; rewrite Hp; exact Hin).
  assert (Hl : exists l, NodeState.logs (node receiver (store again))
                = ((NodeState.logs (node receiver (store delivered))
                    ++ [received_entry env delivered p]) ++ l)%list).
  { subst again. rewrite run_arrival_found by exact Hd.
    destruct (processPacketArrival_logs env r' p delivered Hr) as [l Hl].
    exists l. etransitivity; [|exact Hl].
    subst receiver. destruct (Packet.destination p); reflexivity. }
  assert (Hx : in_flight (Packet.id p) dropped = false)
    by apply in_flight_after_drop.
  conj_split; try assumption.
  - destruct Hl as [l Hl]. intros E. rewrite E in Hl.
    apply (f_equal (@List.length _)) in Hl.
    rewrite !List.length_app in Hl. simpl in Hl. lia.
  - now apply run_arrival_absent.
  - intros Hf. apply run_arrival_absent.
    now apply (absent_run env (Packet.id p) es dropped).
Qed.

Lemma delivery_keeps_packet_in_flight_witness :
  let syn := newPacket demo_env (store initial) CLIENT PacketFlag.SYN "" None None 0 1 in
  let sent := exec (step demo_env Connect) initial in
  let delivered := exec (run_arrival demo_env (store initial) syn) sent in
  in_flight (Packet.id syn) sent = true
  /\ in_flight (Packet.id syn) delivered = true
  /\ exec (run_arrival demo_env (store initial) syn) delivered <> delivered.
Proof.
  intros syn sent delivered.
  destruct (delivery_keeps_packet_in_flight demo_env (store initial) (store initial)
              (store initial) syn sent [] (conj eq_refl eq_refl) eq_refl)
    as (_ & H2 & _ & H4 & _).
  split; [reflexivity|]. split; [exact H2 | exact H4].
Defined.

(** C6, as the code has it.  [handleDropPacket] has no return value.  Called
    from the latest render, it takes the packet out of the array of
    packets; when a packet with the id was in the array it appends exactly
    one loss entry to the log of the packet's source and touches nothing
    else, and when none was, the world is unchanged.  The arrival callback
    of a dropped packet does nothing: no transition and no log entry on the
    receiving side. *)
Theorem drop_removes_and_logs env r w id :
  Render.packets r = Render.packets (store w) ->
  let w' := exec (handleDropPacket env r id) w in
  result (handleDropPacket env r id) w = undefined
  /\ in_flight id w' = false
  /\ Render.packets (store w') = remove_id id (Render.packets (store w))
  /\ (forall pkt, find_id id (Render.packets (store w)) = Some pkt ->
      NodeState.logs (node (Packet.source pkt) (store w'))
      = (NodeState.logs (node (Packet.source pkt) (store w)) ++ [loss_entry env w pkt])%list
      /\ same_protocol_fields (node (Packet.source pkt) (store w'))
           (node (Packet.source pkt) (store w))
      /\ node (peer (Packet.source pkt)) (store w')
         = node (peer (Packet.source pkt)) (store w)
      /\ timers w' = timers w)
  /\ (find_id id (Render.packets (store w)) = None -> w' = w)
  /\ (forall r' p, Packet.id p = id -> exec (run_arrival env r' p) w' = w').
Proof.
  intros Hr w'. subst w'. conj_split.
  - apply handleDropPacket_result.
  - apply in_flight_after_drop.
  - apply handleDropPacket_packets.
  - intros pkt F. rewrite <- Hr in F. exact (handleDropPacket_found env r id w pkt F).
  - intros F. apply handleDropPacket_unknown; [rewrite Hr|]; exact F.
  - intros r' p Hp. apply run_arrival_absent. rewrite Hp. apply in_flight_after_drop.
Qed.

Lemma drop_removes_and_logs_witness :
  Render.packets (established_render PacketFlag.DATA)
  = Render.packets (store (established_world PacketFlag.DATA))
  /\ result (handleDropPacket demo_env (established_render PacketFlag.DATA) "k3x9")
            (established_world PacketFlag.DATA) = undefined
  /\ in_flight "k3x9"
       (exec (handleDropPacket demo_env (established_render PacketFlag.DATA) "k3x9")
             (established_world PacketFlag.DATA)) = false.
Proof.
  split; [reflexivity|].
  destruct (drop_removes_and_logs demo_env (established_render PacketFlag.DATA)
              (established_world PacketFlag.DATA) "k3x9" eq_refl) as (H1 & H2 & _).
  split; [exact H1 | exact H2].
Defined.

(** C6 as stated fails on the return value: dropping a packet that is in
    flight does not return [true], and dropping an unknown one does not
    return [false]. *)
Lemma drop_returns_no_boolean :
  in_flight "k3x9" (established_world PacketFlag.DATA) = true
  /\ result (handleDropPacket demo_env (established_render PacketFlag.DATA) "k3x9")
            (established_world PacketFlag.DATA) <> boolean true
  /\ in_flight "zzzz" (established_world PacketFlag.DATA) = false
  /\ result (handleDropPacket demo_env (established_render PacketFlag.DATA) "zzzz")
            (established_world PacketFlag.DATA) <> boolean false.
Proof.
  split; [reflexivity|]. split; [vm_compute; discriminate|].
  split; [reflexivity|]. vm_compute; discriminate.
Qed.

(** ** Sending *)

(** What a send does to the counters.  A send from either role, through
    [sendPacketWithSchedule] or through [sendPacket], puts one packet on
    the network and moves the sender's [seq] up by exactly one for SYN,
    SYN-ACK, FIN and DATA and not at all for a bare ACK (nor for any other
    flag); the peer's node is not touched.  Without a sequence override the
    packet carries the [seq] its closure sees.  Over any run of the
    component neither node's [seq] ever goes down. *)
Lemma send_advances_seq env r w from flag payload overrideSeq overrideAck :
  let p := newPacket env r from flag payload overrideSeq overrideAck
             (draws w) (S (draws w)) in
  let w1 := exec (sendPacketWithSchedule env r from flag payload overrideSeq overrideAck) w in
  let w2 := exec (sendPacket env r from flag payload overrideSeq overrideAck) w in
  let before := NodeState.seq (node from (store w)) in
  Render.packets (store w1) = (Render.packets (store w) ++ [p])%list
  /\ Render.packets (store w2) = (Render.packets (store w) ++ [p])%list
  /\ (flag = PacketFlag.SYN \/ flag = PacketFlag.SYN_ACK \/ flag = PacketFlag.FIN
      \/ flag = PacketFlag.DATA ->
      NodeState.seq (node from (store w1)) = before + 1
      /\ NodeState.seq (node from (store w2)) = before + 1)
  /\ (flag = PacketFlag.ACK \/ flag = PacketFlag.RST \/ flag = PacketFlag.NONE ->
      NodeState.seq (node from (store w1)) = before
      /\ NodeState.seq (node from (store w2)) = before)
  /\ node (peer from) (store w1) = node (peer from) (store w)
  /\ node (peer from) (store w2) = node (peer from) (store w)
  /\ (overrideSeq = None -> Packet.seq p = NodeState.seq (node from r))
  /\ (overrideSeq = None -> NodeState.seq (node from r) = before -> Packet.seq p = before)
  /\ (forall es, grows w (exec (run env es) w)).
Proof.
  intros p w1 w2 before.
  destruct (sendPacketWithSchedule_effect env r from flag payload overrideSeq overrideAck w)
    as (P1 & _ & _ & S1 & _ & _ & _ & O1).
  destruct (sendPacket_effect env r from flag payload overrideSeq overrideAck w)
    as (P2 & _ & _ & S2 & O2).
  fold w1 in P1, S1, O1. fold w2 in P2, S2, O2. fold before in S1, S2.
  assert (Hseq : overrideSeq = None -> Packet.seq p = NodeState.seq (node from r)).
  { intros ->. subst p. destruct from; reflexivity. }
  conj_split; try assumption.
  - intros [H|[H|[H|H]]]; subst flag; simpl in S1, S2; split; assumption.
  - intros [H|[H|H]]; subst flag; simpl in S1, S2; split; lia.
  - intros H1 H2. rewrite <- H2. auto.
  - intros es. apply grows_run.
Qed.



(** C9.  [disconnect()] from an established client puts a FIN with the
    client's current [seq] and [lastAckReceived] on the network and, in
    the same step, leaves the client CLOSED without a session, while the
    FIN is still in flight and the server has not changed.  Whether the
    FIN is later delivered or dropped, the client stays CLOSED without a
    session. *)
Theorem disconnect_closes_at_once env w r' :
  roles_ok (store w) ->
  NodeState.connectionState (Render.client (store w)) = ConnectionState.ESTABLISHED ->
  let fin := newPacket env (store w) CLIENT PacketFlag.FIN "" None None
               (draws w) (S (draws w)) in
  let w' := exec (step env Disconnect) w in
  (Packet.flag fin = PacketFlag.FIN
   /\ Packet.source fin = CLIENT /\ Packet.destination fin = SERVER
   /\ Packet.seq fin = NodeState.seq (Render.client (store w))
   /\ Packet.ack fin = NodeState.lastAckReceived (Render.client (store w)))
  /\ Render.packets (store w') = (Render.packets (store w) ++ [fin])%list
  /\ timers w' = (timers w ++ [mkTimer (arrival (store w) fin) LATENCY_MS])%list
  /\ NodeState.connectionState (Render.client (store w')) = ConnectionState.CLOSED
  /\ NodeState.sessionId (Render.client (store w')) = None
  /\ Render.server (store w') = Render.server (store w)
  /\ client_session_kept w' (exec (run_arrival env (store w) fin) w')
  /\ client_session_kept w' (exec (handleDropPacket env r' (Packet.id fin)) w').
Proof.
  intros Hroles Hest fin w'.
  assert (E : w' = exec (handleDisconnect env (store w)) w).
  { subst w'. cbn [step]. rewrite exec_bind. reflexivity. }
  destruct (handleDisconnect_effect env (store w) w) as (P & T & _ & C & S & V).
  rewrite <- E in P, T, C, S, V. fold fin in P, T.
  conj_split; try assumption; try reflexivity.
  - unfold client_session_kept.
    rewrite (run_arrival_to_server env (store w) fin w' Hroles eq_refl). auto.
  - apply handleDropPacket_keeps_client_session.
Qed.

Lemma disconnect_closes_at_once_witness :
  NodeState.connectionState
    (Render.client (store (exec (step demo_env Disconnect) (established_world PacketFlag.DATA))))
  = ConnectionState.CLOSED
  /\ NodeState.sessionId
       (Render.client (store (exec (step demo_env Disconnect)
                                (established_world PacketFlag.DATA))))
     = None.
Proof.
  destruct (disconnect_closes_at_once demo_env (established_world PacketFlag.DATA)
              (established_render PacketFlag.DATA) (conj eq_refl eq_refl) eq_refl)
    as (_ & _ & _ & C & S & _).
  split; [exact C | exact S].
Defined.

(** C10.  [handleDisconnect] tests nothing: for every render and every
    world, the client's CLOSED state included, it puts a FIN on the
    network with its arrival timer, raises the client's [seq] by one and
    leaves the client CLOSED without a session.  [handleConnect] is a no-op
    unless the client it sees is CLOSED, and [handleSendData] is a no-op
    unless the client it sees is ESTABLISHED. *)
Theorem disconnect_has_no_guard env r w :
  let fin := newPacket env r CLIENT PacketFlag.FIN "" None None (draws w) (S (draws w)) in
  let w' := exec (handleDisconnect env r) w in
  Packet.flag fin = PacketFlag.FIN
  /\ Render.packets (store w') = (Render.packets (store w) ++ [fin])%list
  /\ timers w' = (timers w ++ [mkTimer (arrival r fin) LATENCY_MS])%list
  /\ NodeState.seq (Render.client (store w')) = NodeState.seq (Render.client (store w)) + 1
  /\ NodeState.connectionState (Render.client (store w')) = ConnectionState.CLOSED
  /\ NodeState.sessionId (Render.client (store w')) = None
  /\ (NodeState.connectionState (Render.client r) <> ConnectionState.CLOSED ->
      exec (handleConnect env r) w = w)
  /\ (NodeState.connectionState (Render.client r) <> ConnectionState.ESTABLISHED ->
      exec (handleSendData r) w = w).
Proof.
  intros fin w'.
  destruct (handleDisconnect_effect env r w) as (P & T & Q & C & S & _).
  conj_split; try assumption; try reflexivity.
  - intros H. unfold handleConnect.
    destruct (NodeState.connectionState (Render.client r)); try reflexivity.
    now elim H.
  - intros H. unfold handleSendData.
    destruct (NodeState.connectionState (Render.client r)); try reflexivity.
    now elim H.
Qed.

Lemma disconnect_has_no_guard_witness :
  NodeState.connectionState (Render.client (store initial)) = ConnectionState.CLOSED
  /\ NodeState.connectionState
       (Render.client (store (exec (handleDisconnect demo_env (store initial)) initial)))
     = ConnectionState.CLOSED
  /\ NodeState.seq
       (Render.client (store (exec (handleDisconnect demo_env (store initial)) initial)))
     = 100 + 1
  /\ in_flight "p0" (exec (handleDisconnect demo_env (store initial)) initial) = true
  /\ exec (handleSendData (store initial)) initial = initial.
Proof.
  destruct (disconnect_has_no_guard demo_env (store initial) initial)
    as (_ & _ & _ & Q & C & _ & _ & D).
  split; [reflexivity|]. split; [exact C|]. split; [exact Q|].
  split; [reflexivity|]. apply D. discriminate.
Defined.

(** ** No run of the component completes the handshake *)

Lemma roles_refl w : roles_kept w w.
Proof. split; reflexivity. Qed.

Lemma roles_trans a b c : roles_kept a b -> roles_kept b c -> roles_kept a c.
Proof. unfold roles_kept. intros [? ?] [? ?]. split; congruence. Qed.

Lemma roles_timers s t t' d : roles_kept (mkWorld s t d) (mkWorld s t' d).
Proof. split; reflexivity. Qed.

Lemma roles_setClient f :
  (forall c, NodeState.role (f c) = NodeState.role c) -> stable roles_kept (setClient f).
Proof. intros H w. split; [apply H | reflexivity]. Qed.

Lemma roles_setServer f :
  (forall c, NodeState.role (f c) = NodeState.role c) -> stable roles_kept (setServer f).
Proof. intros H w. split; [reflexivity | apply H]. Qed.

Lemma roles_setPackets f : stable roles_kept (setPackets f).
Proof. intros w. split; reflexivity. Qed.

Lemma roles_oracle : stable roles_kept oracle.
Proof. intros w. split; reflexivity. Qed.

Ltac roles_prim :=
  idtac;
  lazymatch goal with
  | |- stable _ (setClient _) => apply roles_setClient; intros ?; reflexivity
  | |- stable _ (setServer _) => apply roles_setServer; intros ?; reflexivity
  | |- stable _ (setPackets _) => apply roles_setPackets
  | |- stable _ (setTimeout _ _) => apply (stable_setTimeout _ roles_timers)
  | |- stable _ oracle => apply roles_oracle
  end.

Ltac roles_with leaf := stable_split roles_refl roles_trans leaf.

Lemma roles_addLog env role message type : stable roles_kept (addLog env role message type).
Proof. unfold addLog. roles_with roles_prim. Qed.

Lemma roles_advance_sender from flag : stable roles_kept (advance_sender from flag).
Proof. unfold advance_sender. roles_with roles_prim. Qed.

Ltac roles_leaf :=
  idtac;
  lazymatch goal with
  | |- stable _ (addLog _ _ _ _) => apply roles_addLog
  | |- stable _ (advance_sender _ _) => apply roles_advance_sender
  | |- _ => roles_prim
  end.

Lemma roles_sendPacketWithSchedule env r from flag payload os oa :
  stable roles_kept (sendPacketWithSchedule env r from flag payload os oa).
Proof.
  unfold sendPacketWithSchedule, schedulePacketArrival. roles_with roles_leaf.
Qed.

Lemma roles_processPacketArrival env r packet :
  stable roles_kept (processPacketArrival env r packet).
Proof. unfold processPacketArrival. cbv zeta. roles_with roles_leaf. Qed.

Lemma roles_handleDropPacket env r id : stable roles_kept (handleDropPacket env r id).
Proof. unfold handleDropPacket. roles_with roles_leaf. Qed.

Lemma roles_handleConnect env r : stable roles_kept (handleConnect env r).
Proof.
  unfold handleConnect.
  roles_with ltac:(first [apply roles_sendPacketWithSchedule | roles_leaf]).
Qed.

Lemma roles_handleDisconnect env r : stable roles_kept (handleDisconnect env r).
Proof.
  unfold handleDisconnect.
  roles_with ltac:(first [apply roles_sendPacketWithSchedule | roles_leaf]).
Qed.

Lemma roles_ok_kept w w' : roles_kept w w' -> roles_ok (store w) -> roles_ok (store w').
Proof. unfold roles_kept, roles_ok. intros [? ?] [? ?]. split; congruence. Qed.

Lemma handleDropPacket_timers env r id w :
  timers (exec (handleDropPacket env r id) w) = timers w.
Proof.
  destruct (find_id id (Render.packets r)) as [pkt|] eqn:F.
  - now destruct (handleDropPacket_found env r id w pkt F) as (_ & _ & _ & H).
  - unfold handleDropPacket. rewrite F. reflexivity.
Qed.

Lemma processPacketArrival_to_server_timers env r p w :
  roles_ok r ->
  Packet.destination p = SERVER ->
  timers (exec (processPacketArrival env r p) w) = timers w
  \/ timers (exec (processPacketArrival env r p) w)
     = (timers w ++ [mkTimer responder_stub 100])%list.
Proof.
  intros [Hc Hs] Hd.
  open_render r. open_world w. destruct p as [id src dst flag sq ak pl ses ts'].
  simpl in Hc, Hs, Hd. subst.
  destruct connectionState0, flag; js_eval;
    try (left; reflexivity); try (right; reflexivity);
    destruct (ak =? seq0); left; reflexivity.
Qed.

Lemma handleConnect_effect env r w :
  NodeState.connectionState (Render.client r) = ConnectionState.CLOSED ->
  let syn := newPacket env r CLIENT PacketFlag.SYN "" None None (draws w) (S (draws w)) in
  let w' := exec (handleConnect env r) w in
  timers w' = (timers w ++ [mkTimer (arrival r syn) LATENCY_MS])%list
  /\ NodeState.connectionState (Render.client (store w')) = ConnectionState.SYN_SENT.
Proof.
  intros H. unfold handleConnect. rewrite H. cbn [ConnectionState.eqb negb].
  open_world w. js_eval. split; reflexivity.
Qed.

Lemma exec_latest {A} (k : Render.t -> M A) w :
  exec (r <- latest_render ;; k r) w = exec (k (store w)) w.
Proof. reflexivity. Qed.

Lemma take_timer_Forall (P : Timer -> Prop) n l t rest :
  take_timer n l = Some (t, rest) -> Forall P l -> P t /\ Forall P rest.
Proof.
  revert n t rest. induction l as [|x l IH]; intros n t rest H F;
    [destruct n; discriminate|].
  inversion F as [|? ? Px Fl]; subst. destruct n as [|n]; simpl in H.
  - inversion H; subst. auto.
  - destruct (take_timer n l) as [[y rest']|] eqn:E; [|discriminate].
    inversion H; subst. destruct (IH n t rest' E Fl) as [Pt Fr]. auto.
Qed.

Lemma never_connected_setPackets f w :
  never_connected w -> never_connected (exec (setPackets f) w).
Proof. intros H. exact H. Qed.

Lemma never_connected_step env e w :
  never_connected w -> never_connected (exec (step env e) w).
Proof.
  intros Hw. pose proof Hw as (Hroles & Hst & Ht). destruct e; cbn [step].
  - (* connect() *)
    rewrite exec_latest.
    destruct (NodeState.connectionState (Render.client (store w))) eqn:E;
      try (unfold handleConnect; rewrite E; exact Hw).
    destruct (handleConnect_effect env (store w) w E) as [T C].
    split; [|split].
    + apply (roles_ok_kept w _ (roles_handleConnect env (store w) w) Hroles).
    + rewrite C. discriminate.
    + rewrite T. apply Forall_app. split; [assumption|].
      constructor; [|constructor]. split; [assumption|reflexivity].
  - (* disconnect() *)
    rewrite exec_latest.
    destruct (handleDisconnect_effect env (store w) w) as (_ & T & _ & C & _).
    split; [|split].
    + apply (roles_ok_kept w _ (roles_handleDisconnect env (store w) w) Hroles).
    + rewrite C. discriminate.
    + rewrite T. apply Forall_app. split; [assumption|].
      constructor; [|constructor]. split; [assumption|reflexivity].
  - (* sendData() *)
    rewrite exec_latest. unfold handleSendData.
    destruct (NodeState.connectionState (Render.client (store w)));
      try exact Hw.
    now elim Hst.
  - (* dropPacket(id) *)
    rewrite exec_latest.
    assert (E : exec (_ <- handleDropPacket env (store w) id ;; ret tt) w
                = exec (handleDropPacket env (store w) id) w)
      by (rewrite exec_bind; reflexivity).
    rewrite E. split; [|split].
    + apply (roles_ok_kept w _ (roles_handleDropPacket env (store w) id w) Hroles).
    + destruct (handleDropPacket_keeps_client_session env (store w) id w) as [C _].
      rewrite C. assumption.
    + rewrite handleDropPacket_timers. assumption.
  - (* a timer fires *)
    unfold exec, fire.
    destruct (take_timer n (timers w)) as [[t rest]|] eqn:E; [|exact Hw].
    destruct (take_timer_Forall timer_ok n (timers w) t rest E Ht) as [Pt Fr].
    set (w0 := mkWorld (store w) rest (draws w)).
    assert (H0 : never_connected w0) by (split; [|split]; assumption).
    unfold timer_ok in Pt.
    destruct (callback t) as [r p| |p|r from flag oa|r]; try contradiction.
    + destruct Pt as [Hr Hd]. cbn [run_callback].
      fold (exec (run_arrival env r p) w0).
      destruct (in_flight (Packet.id p) w0) eqn:F;
        [|rewrite run_arrival_absent by exact F; exact H0].
      rewrite run_arrival_found by exact F.
      apply never_connected_setPackets.
      split; [|split].
      * apply (roles_ok_kept w0 _ (roles_processPacketArrival env r p w0) Hroles).
      * rewrite (processPacketArrival_to_server env r p w0 Hr Hd). assumption.
      * destruct (processPacketArrival_to_server_timers env r p w0 Hr Hd) as [T|T];
          rewrite T; [assumption|].
        apply Forall_app. split; [assumption|]. constructor; [exact I|constructor].
    + exact H0.
Qed.

(** Whatever the user clicks and in whatever order the timers fire, the
    client never becomes ESTABLISHED: it can only send SYN and FIN, the
    server never answers, and [sendData] stays disabled. *)
Lemma no_run_establishes_client env es :
  NodeState.connectionState (Render.client (store (exec (run env es) initial)))
  <> ConnectionState.ESTABLISHED.
Proof.
  assert (H : forall w, never_connected w -> never_connected (exec (run env es) w)).
  { induction es as [|e es IH]; intros w Hw; [exact Hw|].
    cbn [run]. rewrite exec_bind. apply IH. now apply never_connected_step. }
  destruct (H initial) as (_ & C & _); [|exact C].
  split; [split; reflexivity|]. split; [discriminate|constructor].
Qed.

(** * Beyond the claims *)

(** Unfold the closures of the component down to their state updates. *)
Ltac unfold_component :=
  unfold run_arrival, run_arrival_ref, handleArrival,
    handleConnect, handleDisconnect, handleSendData, handleDropPacket,
    sendPacketWithSchedule, schedulePacketArrival,
    processPacketArrival, processPacketArrivalRef_current,
    addLog, advance_sender;
  cbv zeta.

(** ** The logs are append-only *)

Lemma logs_refl w : logs_extend w w.
Proof. split; exists []; now rewrite app_nil_r. Qed.

Lemma logs_trans a b c : logs_extend a b -> logs_extend b c -> logs_extend a c.
Proof.
  intros [[l1 H1] [l2 H2]] [[l3 H3] [l4 H4]]. split.
  - exists (l1 ++ l3)%list. now rewrite H3, H1, app_assoc.
  - exists (l2 ++ l4)%list. now rewrite H4, H2, app_assoc.
Qed.

Lemma logs_timers s t t' d : logs_extend (mkWorld s t d) (mkWorld s t' d).
Proof. split; exists []; simpl; now rewrite app_nil_r. Qed.

Lemma logs_setClient f :
  (forall c, exists l, NodeState.logs (f c) = (NodeState.logs c ++ l)%list) ->
  stable logs_extend (setClient f).
Proof. intros H w. split; [apply H | exists []; simpl; now rewrite app_nil_r]. Qed.

Lemma logs_setServer f :
  (forall c, exists l, NodeState.logs (f c) = (NodeState.logs c ++ l)%list) ->
  stable logs_extend (setServer f).
Proof. intros H w. split; [exists []; simpl; now rewrite app_nil_r | apply H]. Qed.

Lemma logs_setPackets f : stable logs_extend (setPackets f).
Proof. intros w. split; exists []; simpl; now rewrite app_nil_r. Qed.

Lemma logs_oracle : stable logs_extend oracle.
Proof. intros w. split; exists []; simpl; now rewrite app_nil_r. Qed.

Ltac logs_side :=
  intros ?; simpl;
  first [ eexists; reflexivity | exists []; now rewrite app_nil_r ].

Ltac logs_prim :=
  idtac;
  lazymatch goal with
  | |- stable _ (setClient _) => apply logs_setClient; logs_side
  | |- stable _ (setServer _) => apply logs_setServer; logs_side
  | |- stable _ (setPackets _) => apply logs_setPackets
  | |- stable _ (setTimeout _ _) => apply (stable_setTimeout _ logs_timers)
  | |- stable _ oracle => apply logs_oracle
  end.

Lemma logs_run_callback env cb : stable logs_extend (run_callback env cb).
Proof.
  destruct cb; cbn [run_callback]; unfold_component;
    stable_split logs_refl logs_trans logs_prim.
Qed.

Lemma logs_step env e : stable logs_extend (step env e).
Proof.
  destruct e; cbn [step];
    try (apply (stable_fire _ logs_refl logs_trans logs_timers);
         apply logs_run_callback);
    unfold_component; stable_split logs_refl logs_trans logs_prim.
Qed.

(** X1.  Whatever is clicked and whichever timers fire, in any order and
    from any state, each node's log after the run is its log before the
    run followed by new entries: no handler rewrites or drops an entry. *)
Theorem logs_are_append_only env es w :
  logs_extend w (exec (run env es) w).
Proof. apply (stable_run _ logs_refl logs_trans). apply logs_step. Qed.

(** ** Connection states that are never entered *)

Lemma client_moves_trans a b c : client_moves a b -> client_moves b c -> client_moves a c.
Proof. unfold client_moves. intuition congruence. Qed.

Lemma server_moves_trans a b c : server_moves a b -> server_moves b c -> server_moves a c.
Proof. unfold server_moves. intuition congruence. Qed.

Lemma moves_refl w : moves w w.
Proof. split; left; reflexivity. Qed.

Lemma moves_trans a b c : moves a b -> moves b c -> moves a c.
Proof.
  intros [? ?] [? ?]. split;
    [eapply client_moves_trans | eapply server_moves_trans]; eauto.
Qed.

Lemma moves_timers s t t' d : moves (mkWorld s t d) (mkWorld s t' d).
Proof. split; left; reflexivity. Qed.

Lemma moves_setClient f :
  (forall c, client_moves (NodeState.connectionState c) (NodeState.connectionState (f c))) ->
  stable moves (setClient f).
Proof. intros H w. split; [apply H | left; reflexivity]. Qed.

Lemma moves_setServer f :
  (forall c, server_moves (NodeState.connectionState c) (NodeState.connectionState (f c))) ->
  stable moves (setServer f).
Proof. intros H w. split; [left; reflexivity | apply H]. Qed.

Lemma moves_setPackets f : stable moves (setPackets f).
Proof. intros w. split; left; reflexivity. Qed.

Lemma moves_oracle : stable moves oracle.
Proof. intros w. split; left; reflexivity. Qed.

Ltac moves_side :=
  intros ?; unfold client_moves, server_moves; simpl; tauto.

Ltac moves_prim :=
  idtac;
  lazymatch goal with
  | |- stable _ (setClient _) => apply moves_setClient; moves_side
  | |- stable _ (setServer _) => apply moves_setServer; moves_side
  | |- stable _ (setPackets _) => apply moves_setPackets
  | |- stable _ (setTimeout _ _) => apply (stable_setTimeout _ moves_timers)
  | |- stable _ oracle => apply moves_oracle
  end.

Lemma moves_run_callback env cb : stable moves (run_callback env cb).
Proof.
  destruct cb; cbn [run_callback]; unfold_component;
    stable_split moves_refl moves_trans moves_prim.
Qed.

Lemma moves_step env e : stable moves (step env e).
Proof.
  destruct e; cbn [step];
    try (apply (stable_fire _ moves_refl moves_trans moves_timers);
         apply moves_run_callback);
    unfold_component; stable_split moves_refl moves_trans moves_prim.
Qed.

Lemma moves_run env es : stable moves (run env es).
Proof. apply (stable_run _ moves_refl moves_trans). apply moves_step. Qed.

(** X2.  No handler writes LISTEN or FIN_WAIT, and none writes SYN_RCVD to
    the client or SYN_SENT to the server.  So over any run from any state:
    a server that is not listening never listens again (from CLOSED it can
    only stay closed or be put in SYN_RCVD or ESTABLISHED), neither node
    ever enters FIN_WAIT, the client never enters LISTEN or SYN_RCVD and
    the server never enters SYN_SENT. *)
Theorem states_never_entered env es w :
  let client := NodeState.connectionState (Render.client (store w)) in
  let server := NodeState.connectionState (Render.server (store w)) in
  let client' := NodeState.connectionState (Render.client (store (exec (run env es) w))) in
  let server' := NodeState.connectionState (Render.server (store (exec (run env es) w))) in
  (server <> ConnectionState.LISTEN -> server' <> ConnectionState.LISTEN)
  /\ (server = ConnectionState.CLOSED -> server' = ConnectionState.CLOSED
      \/ server' = ConnectionState.SYN_RCVD \/ server' = ConnectionState.ESTABLISHED)
  /\ (client <> ConnectionState.FIN_WAIT -> client' <> ConnectionState.FIN_WAIT)
  /\ (server <> ConnectionState.FIN_WAIT -> server' <> ConnectionState.FIN_WAIT)
  /\ (client <> ConnectionState.LISTEN -> client' <> ConnectionState.LISTEN)
  /\ (client <> ConnectionState.SYN_RCVD -> client' <> ConnectionState.SYN_RCVD)
  /\ (server <> ConnectionState.SYN_SENT -> server' <> ConnectionState.SYN_SENT).
Proof.
  intros client server client' server'.
  destruct (moves_run env es w) as [Hc Hs].
  fold client client' in Hc. fold server server' in Hs.
  unfold client_moves in Hc. unfold server_moves in Hs.
  conj_split; intros H; intuition congruence.
Qed.

Lemma states_never_entered_witness :
  NodeState.connectionState
    (Render.server
       (store (exec (run demo_env [Disconnect; Fire 0; Connect; Fire 0])
                    (established_world PacketFlag.DATA))))
  <> ConnectionState.LISTEN.
Proof.
  destruct (states_never_entered demo_env [Disconnect; Fire 0; Connect; Fire 0]
              (established_world PacketFlag.DATA)) as (H & _).
  apply H. discriminate.
Defined.

(** ** Packets go from one node to the other *)

Lemma cross_refl w : cross_kept w w.
Proof. intros H. exact H. Qed.

Lemma cross_trans a b c : cross_kept a b -> cross_kept b c -> cross_kept a c.
Proof. unfold cross_kept. auto. Qed.

Lemma cross_timers s t t' d : cross_kept (mkWorld s t d) (mkWorld s t' d).
Proof. intros H. exact H. Qed.

Lemma cross_setClient f : stable cross_kept (setClient f).
Proof. intros w H. exact H. Qed.

Lemma cross_setServer f : stable cross_kept (setServer f).
Proof. intros w H. exact H. Qed.

Lemma cross_oracle : stable cross_kept oracle.
Proof. intros w H. exact H. Qed.

Lemma cross_remove id : stable cross_kept (setPackets (remove_id id)).
Proof.
  intros w H. unfold exec, remove_id. simpl.
  rewrite Forall_forall in *. intros p Hp. apply filter_In in Hp. apply H, Hp.
Qed.

Lemma cross_append p : crosses p -> stable cross_kept (setPackets (fun prev => prev ++ [p])%list).
Proof.
  intros Hp w H. unfold exec. simpl. apply Forall_app. split; [exact H|].
  constructor; [exact Hp | constructor].
Qed.

Lemma newPacket_crosses env r from flag payload os oa i t :
  crosses (newPacket env r from flag payload os oa i t).
Proof. destruct from; reflexivity. Qed.

Ltac cross_prim :=
  idtac;
  lazymatch goal with
  | |- stable _ (setClient _) => apply cross_setClient
  | |- stable _ (setServer _) => apply cross_setServer
  | |- stable _ (setPackets (remove_id _)) => apply cross_remove
  | |- stable _ (setPackets _) => apply cross_append; apply newPacket_crosses
  | |- stable _ (setTimeout _ _) => apply (stable_setTimeout _ cross_timers)
  | |- stable _ oracle => apply cross_oracle
  end.

Lemma cross_run_callback env cb : stable cross_kept (run_callback env cb).
Proof.
  destruct cb; cbn [run_callback];
    [ | apply (stable_ret _ cross_refl) | | | ];
    try solve [unfold_component; stable_split cross_refl cross_trans cross_prim].
  - intros w H. now rewrite run_arrival_packets.
  - intros w H. now rewrite run_arrival_ref_packets.
Qed.

Lemma cross_step env e : stable cross_kept (step env e).
Proof.
  destruct e; cbn [step];
    try (apply (stable_fire _ cross_refl cross_trans cross_timers);
         apply cross_run_callback);
    unfold_component; stable_split cross_refl cross_trans cross_prim.
Qed.

(** X3.  No packet is ever addressed to its own sender: if every packet in
    flight goes from one node to the other, this is still so after any run
    of the component, and in particular in every run from the initial
    state. *)
Theorem packets_cross_the_network env es w :
  (Forall crosses (Render.packets (store w)) ->
   Forall crosses (Render.packets (store (exec (run env es) w))))
  /\ Forall crosses (Render.packets (store (exec (run env es) initial))).
Proof.
  assert (H : forall w0, cross_kept w0 (exec (run env es) w0)).
  { apply (stable_run _ cross_refl cross_trans). apply cross_step. }
  split; [apply H|]. apply H. constructor.
Qed.

Lemma packets_cross_the_network_witness :
  Forall crosses
    (Render.packets (store (exec (run demo_env [Disconnect; SendData; Fire 1])
                                 (established_world PacketFlag.DATA)))).
Proof.
  apply (packets_cross_the_network demo_env [Disconnect; SendData; Fire 1]
           (established_world PacketFlag.DATA)).
  constructor; [reflexivity | constructor].
Defined.

(** ** The two arrival handlers *)

(** X4.  The handler the timers call ([processPacketArrival]) and the one
    kept in the ref ([processPacketArrivalRef.current]) leave both nodes
    with the same connection state, [seq] and [lastAckReceived], the client
    with the same session and the network with the same packets, on every
    packet except two kinds addressed to the server: an ACK in SYN_RCVD
    with the wrong [ack], and a FIN outside ESTABLISHED.  On those the
    first handler leaves the server as it is, and the second one
    establishes, respectively closes, it. *)
Theorem handlers_agree_except_on env r w packet :
  roles_ok r ->
  let w1 := exec (processPacketArrival env r packet) w in
  let w2 := exec (processPacketArrivalRef_current env r packet) w in
  (handlers_differ r packet = false ->
   NodeState.connectionState (Render.client (store w1))
   = NodeState.connectionState (Render.client (store w2))
   /\ NodeState.connectionState (Render.server (store w1))
      = NodeState.connectionState (Render.server (store w2))
   /\ NodeState.seq (Render.client (store w1)) = NodeState.seq (Render.client (store w2))
   /\ NodeState.seq (Render.server (store w1)) = NodeState.seq (Render.server (store w2))
   /\ NodeState.lastAckReceived (Render.client (store w1))
      = NodeState.lastAckReceived (Render.client (store w2))
   /\ NodeState.lastAckReceived (Render.server (store w1))
      = NodeState.lastAckReceived (Render.server (store w2))
   /\ NodeState.sessionId (Render.client (store w1))
      = NodeState.sessionId (Render.client (store w2))
   /\ Render.packets (store w1) = Render.packets (store w2))
  /\ (handlers_differ r packet = true ->
      same_protocol_fields (Render.server (store w1)) (Render.server (store w))
      /\ (Packet.flag packet = PacketFlag.ACK ->
          NodeState.connectionState (Render.server (store w2)) = ConnectionState.ESTABLISHED)
      /\ (Packet.flag packet = PacketFlag.FIN ->
          NodeState.connectionState (Render.server (store w2)) = ConnectionState.CLOSED
          /\ NodeState.sessionId (Render.server (store w2)) = None)).
Proof.
  intros [Hc Hs].
  open_render r. open_world w. destruct packet as [id src dst flag sq ak pl ses ts'].
  simpl in Hc, Hs. subst.
  destruct dst.
  - destruct connectionState, flag; js_eval; split; intros H;
      try discriminate H; conj_split; reflexivity.
  - destruct connectionState0, flag; js_eval;
      try (destruct (ak =? seq0); js_eval);
      split; intros H; try discriminate H; conj_split;
      try reflexivity; intros H'; try discriminate H'; conj_split; reflexivity.
Qed.

Lemma handlers_agree_except_on_witness :
  NodeState.connectionState
    (Render.server (store (exec (processPacketArrival demo_env
                                   (established_render PacketFlag.DATA)
                                   (demo_packet PacketFlag.DATA CLIENT 101 5001))
                                (established_world PacketFlag.DATA))))
  = NodeState.connectionState
      (Render.server (store (exec (processPacketArrivalRef_current demo_env
                                     (established_render PacketFlag.DATA)
                                     (demo_packet PacketFlag.DATA CLIENT 101 5001))
                                  (established_world PacketFlag.DATA))))
  /\ NodeState.connectionState
       (Render.server (store (exec (processPacketArrivalRef_current demo_env
                                      syn_rcvd_render
                                      (demo_packet PacketFlag.FIN CLIENT 101 5001))
                                   syn_rcvd_world)))
     = ConnectionState.CLOSED.
Proof.
  split.
  - destruct (handlers_agree_except_on demo_env (established_render PacketFlag.DATA)
                (established_world PacketFlag.DATA)
                (demo_packet PacketFlag.DATA CLIENT 101 5001) (conj eq_refl eq_refl))
      as [H _].
    destruct (H eq_refl) as (_ & K & _). exact K.
  - destruct (handlers_agree_except_on demo_env syn_rcvd_render syn_rcvd_world
                (demo_packet PacketFlag.FIN CLIENT 101 5001) (conj eq_refl eq_refl))
      as [_ H].
    destruct (H eq_refl) as (_ & _ & K). destruct (K eq_refl) as [K1 _]. exact K1.
Defined.

(** ** The automatic replies of the handler kept in the ref *)

(** X5.  On a DATA packet for an established server, the ref handler
    records [lastAckReceived = seq + 1] and schedules one reply; when that
    reply runs it puts on the network an ACK for the client whose [ack] is
    the data's [seq] plus one and whose [seq] is the server's, and the
    server's own [seq] is not advanced by it. *)
Theorem ref_handler_acknowledges_data env r w packet :
  roles_ok r ->
  NodeState.connectionState (Render.server r) = ConnectionState.ESTABLISHED ->
  Packet.destination packet = SERVER ->
  Packet.flag packet = PacketFlag.DATA ->
  let reply := auto_reply r SERVER PacketFlag.ACK (Packet.seq packet + 1) in
  let w1 := exec (processPacketArrivalRef_current env r packet) w in
  let w2 := exec (run_callback env reply) w1 in
  let ack := newPacket env r SERVER PacketFlag.ACK "" None (Some (Packet.seq packet + 1))
               (draws w1) (S (draws w1)) in
  timers w1 = (timers w ++ [mkTimer reply 300])%list
  /\ NodeState.lastAckReceived (Render.server (store w1)) = Packet.seq packet + 1
  /\ NodeState.connectionState (Render.server (store w1))
     = NodeState.connectionState (Render.server (store w))
  /\ Render.packets (store w2)
     = (remove_id (Packet.id packet) (Render.packets (store w)) ++ [ack])%list
  /\ (Packet.flag ack = PacketFlag.ACK /\ Packet.source ack = SERVER
      /\ Packet.destination ack = CLIENT
      /\ Packet.ack ack = Packet.seq packet + 1
      /\ Packet.seq ack = NodeState.seq (Render.server r))
  /\ NodeState.seq (Render.server (store w2)) = NodeState.seq (Render.server (store w)).
Proof.
  intros [Hc Hs] Hst Hd Hf.
  open_render r. open_world w. destruct packet as [id src dst flag sq ak pl ses ts'].
  simpl in Hc, Hs, Hst, Hd, Hf. subst.
  js_eval. conj_split; reflexivity.
Qed.

Lemma ref_handler_acknowledges_data_witness :
  NodeState.lastAckReceived
    (Render.server (store (exec (processPacketArrivalRef_current demo_env
                                   (established_render PacketFlag.DATA)
                                   (demo_packet PacketFlag.DATA CLIENT 101 5001))
                                (established_world PacketFlag.DATA))))
  = 101 + 1.
Proof.
  apply (ref_handler_acknowledges_data demo_env (established_render PacketFlag.DATA)
           (established_world PacketFlag.DATA)
           (demo_packet PacketFlag.DATA CLIENT 101 5001));
    try reflexivity.
  split; reflexivity.
Defined.

(** X6.  On a SYN for a listening server, the ref handler gives the server
    a new session and schedules the SYN-ACK, but the reply is built by the
    [sendPacketWithSchedule] of the handler's own render: the SYN-ACK
    carries the session that render saw, not the one just allocated.  When
    the server had no session the SYN-ACK has none, and a client in
    SYN_SENT that receives it through either handler is established
    without a session. *)
Theorem ref_handler_syn_ack_has_stale_session env r w packet :
  roles_ok r ->
  NodeState.connectionState (Render.server r) = ConnectionState.LISTEN ->
  Packet.destination packet = SERVER ->
  Packet.flag packet = PacketFlag.SYN ->
  let reply := auto_reply r SERVER PacketFlag.SYN_ACK (Packet.seq packet + 1) in
  let w1 := exec (processPacketArrivalRef_current env r packet) w in
  let w2 := exec (run_callback env reply) w1 in
  let synack := newPacket env r SERVER PacketFlag.SYN_ACK "" None
                  (Some (Packet.seq packet + 1)) (draws w1) (S (draws w1)) in
  timers w1 = (timers w ++ [mkTimer reply 500])%list
  /\ NodeState.connectionState (Render.server (store w1)) = ConnectionState.SYN_RCVD
  /\ NodeState.sessionId (Render.server (store w1))
     = Some ("SES-" ++ Number_toString (random_floor env (2 + draws w)))
  /\ Render.packets (store w2)
     = (remove_id (Packet.id packet) (Render.packets (store w)) ++ [synack])%list
  /\ Packet.ack synack = Packet.seq packet + 1
  /\ Packet.seq synack = NodeState.seq (Render.server r)
  /\ Packet.sessionId synack = or_nothing (NodeState.sessionId (Render.server r))
  /\ NodeState.seq (Render.server (store w2)) = NodeState.seq (Render.server (store w)) + 1
  /\ (NodeState.sessionId (Render.server r) = None ->
      forall r' w',
        roles_ok r' ->
        NodeState.connectionState (Render.client r') = ConnectionState.SYN_SENT ->
        NodeState.sessionId
          (Render.client (store (exec (processPacketArrival env r' synack) w'))) = None
        /\ NodeState.sessionId
             (Render.client (store (exec (processPacketArrivalRef_current env r' synack) w')))
           = None
        /\ NodeState.connectionState
             (Render.client (store (exec (processPacketArrivalRef_current env r' synack) w')))
           = ConnectionState.ESTABLISHED).
Proof.
  intros [Hc Hs] Hst Hd Hf.
  open_render r. open_world w. destruct packet as [id src dst flag sq ak pl ses ts'].
  simpl in Hc, Hs, Hst, Hd, Hf. subst.
  js_eval. conj_split; try reflexivity.
  intros Hnone r' w' [Hc' Hs'] Hst'. subst.
  open_render r'. open_world w'. simpl in Hc', Hs', Hst'. subst.
  js_eval. conj_split; reflexivity.
Qed.

Lemma ref_handler_syn_ack_has_stale_session_witness :
  Packet.sessionId
    (newPacket demo_env (store initial) SERVER PacketFlag.SYN_ACK "" None (Some (100 + 1))
       (draws (exec (processPacketArrivalRef_current demo_env (store initial)
                       (demo_packet PacketFlag.SYN CLIENT 100 0)) initial))
       (S (draws (exec (processPacketArrivalRef_current demo_env (store initial)
                          (demo_packet PacketFlag.SYN CLIENT 100 0)) initial))))
  = or_nothing (NodeState.sessionId (Render.server (store initial)))
  /\ NodeState.sessionId
       (Render.server (store (exec (processPacketArrivalRef_current demo_env (store initial)
                                      (demo_packet PacketFlag.SYN CLIENT 100 0)) initial)))
     = Some ("SES-" ++ Number_toString (random_floor demo_env (2 + draws initial))).
Proof.
  destruct (ref_handler_syn_ack_has_stale_session demo_env (store initial) initial
              (demo_packet PacketFlag.SYN CLIENT 100 0)
              (conj eq_refl eq_refl) eq_refl eq_refl eq_refl)
    as (_ & _ & S & _ & _ & _ & P & _).
  split; [exact P | exact S].
Defined.

(** ** A transition is chosen by the state the closure saw *)

(** X7.  The arrival handler reads the server's state from the render in
    which the packet was sent.  A SYN sent while the server was listening
    therefore puts the server (back) in SYN_RCVD with a newly drawn
    session and [lastAckReceived = seq + 1] whatever state the server is in
    when the SYN arrives, established and closed included. *)
Theorem stale_syn_reopens_server env r w packet :
  roles_ok r ->
  NodeState.connectionState (Render.server r) = ConnectionState.LISTEN ->
  Packet.destination packet = SERVER ->
  Packet.flag packet = PacketFlag.SYN ->
  let w' := exec (processPacketArrival env r packet) w in
  NodeState.connectionState (Render.server (store w')) = ConnectionState.SYN_RCVD
  /\ NodeState.sessionId (Render.server (store w'))
     = Some ("SES-" ++ random_session env (4 + draws w))
  /\ NodeState.lastAckReceived (Render.server (store w')) = Packet.seq packet + 1
  /\ NodeState.seq (Render.server (store w')) = NodeState.seq (Render.server (store w)).
Proof.
  intros [Hc Hs] Hst Hd Hf.
  open_render r. open_world w. destruct packet as [id src dst flag sq ak pl ses ts'].
  simpl in Hc, Hs, Hst, Hd, Hf. subst.
  js_eval. conj_split; reflexivity.
Qed.

Lemma stale_syn_reopens_server_witness :
  NodeState.connectionState (Render.server (store (established_world PacketFlag.SYN)))
  = ConnectionState.ESTABLISHED
  /\ NodeState.connectionState
       (Render.server (store (exec (processPacketArrival demo_env (store initial)
                                      (demo_packet PacketFlag.SYN CLIENT 101 5001))
                                   (established_world PacketFlag.SYN))))
     = ConnectionState.SYN_RCVD.
Proof.
  split; [reflexivity|].
  apply (stale_syn_reopens_server demo_env (store initial)
           (established_world PacketFlag.SYN) (demo_packet PacketFlag.SYN CLIENT 101 5001));
    try reflexivity.
  split; reflexivity.
Defined.

(** ** The buttons *)

Lemma handleConnect_sends env r w :
  NodeState.connectionState (Render.client r) = ConnectionState.CLOSED ->
  let syn := newPacket env r CLIENT PacketFlag.SYN "" None None (draws w) (S (draws w)) in
  let w' := exec (handleConnect env r) w in
  Render.packets (store w') = (Render.packets (store w) ++ [syn])%list
  /\ timers w' = (timers w ++ [mkTimer (arrival r syn) LATENCY_MS])%list
  /\ draws w' = (4 + draws w)%nat
  /\ NodeState.connectionState (Render.client (store w')) = ConnectionState.SYN_SENT
  /\ NodeState.seq (Render.client (store w')) = NodeState.seq (Render.client (store w)) + 1
  /\ NodeState.sessionId (Render.client (store w'))
     = NodeState.sessionId (Render.client (store w))
  /\ NodeState.lastAckReceived (Render.client (store w'))
     = NodeState.lastAckReceived (Render.client (store w))
  /\ Render.server (store w') = Render.server (store w).
Proof.
  intros H. unfold handleConnect. rewrite H. cbn [ConnectionState.eqb negb].
  open_world w. js_eval. conj_split; reflexivity.
Qed.

(** X8.  [connect()] from a closed client puts on the network one SYN for
    the server carrying the client's [seq] and [lastAckReceived] and the
    session it has, with its arrival pending; the client is then in
    SYN_SENT with [seq] one higher, and the server is untouched until the
    SYN arrives. *)
Theorem connect_sends_syn env w :
  NodeState.connectionState (Render.client (store w)) = ConnectionState.CLOSED ->
  let syn := newPacket env (store w) CLIENT PacketFlag.SYN "" None None
               (draws w) (S (draws w)) in
  let w' := exec (step env Connect) w in
  (Packet.flag syn = PacketFlag.SYN
   /\ Packet.source syn = CLIENT /\ Packet.destination syn = SERVER
   /\ Packet.seq syn = NodeState.seq (Render.client (store w))
   /\ Packet.ack syn = NodeState.lastAckReceived (Render.client (store w))
   /\ Packet.sessionId syn = or_nothing (NodeState.sessionId (Render.client (store w))))
  /\ Render.packets (store w') = (Render.packets (store w) ++ [syn])%list
  /\ timers w' = (timers w ++ [mkTimer (arrival (store w) syn) LATENCY_MS])%list
  /\ NodeState.connectionState (Render.client (store w')) = ConnectionState.SYN_SENT
  /\ NodeState.seq (Render.client (store w')) = NodeState.seq (Render.client (store w)) + 1
  /\ Render.server (store w') = Render.server (store w).
Proof.
  intros H syn w'.
  assert (E : w' = exec (handleConnect env (store w)) w) by reflexivity.
  destruct (handleConnect_sends env (store w) w H) as (P & T & _ & C & S & _ & _ & V).
  rewrite <- E in P, T, C, S, V. fold syn in P, T.
  conj_split; try assumption; reflexivity.
Qed.

Lemma connect_sends_syn_witness :
  NodeState.connectionState
    (Render.client (store (exec (step demo_env Connect) initial)))
  = ConnectionState.SYN_SENT
  /\ NodeState.seq (Render.client (store (exec (step demo_env Connect) initial))) = 100 + 1.
Proof.
  destruct (connect_sends_syn demo_env initial eq_refl) as (_ & _ & _ & C & S & _).
  split; [exact C | exact S].
Defined.

(** X9.  [connect()] followed at once by [disconnect()], each from the
    latest render: the network holds, in this order, a SYN with the
    client's [seq] and a FIN with that [seq] plus one, both with their
    arrival pending; the client is closed again, without a session, its
    [seq] two higher; the server has not changed. *)
Theorem connect_then_disconnect env w :
  NodeState.connectionState (Render.client (store w)) = ConnectionState.CLOSED ->
  let w1 := exec (step env Connect) w in
  let w2 := exec (run env [Connect; Disconnect]) w in
  let syn := newPacket env (store w) CLIENT PacketFlag.SYN "" None None
               (draws w) (S (draws w)) in
  let fin := newPacket env (store w1) CLIENT PacketFlag.FIN "" None None
               (draws w1) (S (draws w1)) in
  Render.packets (store w2) = (Render.packets (store w) ++ [syn; fin])%list
  /\ timers w2 = (timers w ++ [mkTimer (arrival (store w) syn) LATENCY_MS;
                               mkTimer (arrival (store w1) fin) LATENCY_MS])%list
  /\ Packet.seq syn = NodeState.seq (Render.client (store w))
  /\ Packet.seq fin = NodeState.seq (Render.client (store w)) + 1
  /\ NodeState.connectionState (Render.client (store w2)) = ConnectionState.CLOSED
  /\ NodeState.sessionId (Render.client (store w2)) = None
  /\ NodeState.seq (Render.client (store w2)) = NodeState.seq (Render.client (store w)) + 2
  /\ Render.server (store w2) = Render.server (store w).
Proof.
  intros H w1 w2 syn fin.
  assert (E1 : w1 = exec (handleConnect env (store w)) w) by reflexivity.
  assert (E2 : w2 = exec (handleDisconnect env (store w1)) w1).
  { subst w2. cbn [run]. rewrite !exec_bind. reflexivity. }
  destruct (handleConnect_sends env (store w) w H) as (P & T & _ & _ & S & _ & _ & V).
  rewrite <- E1 in P, T, S, V. fold syn in P, T.
  destruct (handleDisconnect_effect env (store w1) w1) as (P' & T' & S' & C' & N' & V').
  rewrite <- E2 in P', T', S', C', N', V'.
  split; [rewrite P', P, <- app_assoc; reflexivity|].
  split; [rewrite T', T, <- app_assoc; reflexivity|].
  split; [reflexivity|].
  split; [exact S|].
  split; [exact C'|].
  split; [exact N'|].
  split; [rewrite S', S; lia|].
  rewrite V'. exact V.
Qed.

Lemma connect_then_disconnect_witness :
  NodeState.seq (Render.client (store (exec (run demo_env [Connect; Disconnect]) initial)))
  = NodeState.seq (Render.client (store initial)) + 2
  /\ NodeState.connectionState
       (Render.client (store (exec (run demo_env [Connect; Disconnect]) initial)))
     = ConnectionState.CLOSED.
Proof.
  destruct (connect_then_disconnect demo_env initial eq_refl)
    as (_ & _ & _ & _ & C & _ & S & _).
  split; [exact S | exact C].
Defined.

(** X10.  [sendData()] reads the client's [seq] from the render of the
    click, and sends only after the payload has arrived.  Two clicks made
    in the same render (before the first payload is back) therefore put on
    the network two DATA packets with the same [seq], that of the render,
    while the client's [seq] goes up by two. *)
Theorem double_send_reuses_seq env r w :
  NodeState.connectionState (Render.client r) = ConnectionState.ESTABLISHED ->
  let w1 := exec (handleSendData r ;; handleSendData r) w in
  let w2 := exec (run_callback env (send_data_resume r)) w1 in
  let w3 := exec (run_callback env (send_data_resume r)) w2 in
  let d1 := newPacket env r CLIENT PacketFlag.DATA (secure_payload env (draws w1)) None None
              (S (draws w1)) (S (S (draws w1))) in
  let d2 := newPacket env r CLIENT PacketFlag.DATA (secure_payload env (draws w2)) None None
              (S (draws w2)) (S (S (draws w2))) in
  timers w1 = ((timers w ++ [mkTimer (send_data_resume r) 0])
                ++ [mkTimer (send_data_resume r) 0])%list
  /\ store w1 = store w
  /\ Render.packets (store w3) = ((Render.packets (store w) ++ [d1]) ++ [d2])%list
  /\ Packet.seq d1 = NodeState.seq (Render.client r)
  /\ Packet.seq d2 = NodeState.seq (Render.client r)
  /\ NodeState.seq (Render.client (store w3)) = NodeState.seq (Render.client (store w)) + 2.
Proof.
  intros H. unfold handleSendData. rewrite H. cbn [ConnectionState.eqb negb].
  open_world w. js_eval. conj_split; try reflexivity. lia.
Qed.

Lemma double_send_reuses_seq_witness :
  NodeState.seq
    (Render.client
       (store (exec (run_callback demo_env (send_data_resume (established_render PacketFlag.DATA)))
                 (exec (run_callback demo_env
                          (send_data_resume (established_render PacketFlag.DATA)))
                    (exec (handleSendData (established_render PacketFlag.DATA) ;;
                           handleSendData (established_render PacketFlag.DATA))
                          (established_world PacketFlag.DATA))))))
  = NodeState.seq (Render.client (store (established_world PacketFlag.DATA))) + 2.
Proof.
  apply (double_send_reuses_seq demo_env (established_render PacketFlag.DATA)
           (established_world PacketFlag.DATA)).
  reflexivity.
Defined.

(** ** Only a click on a packet takes it off the network *)














Lemma find_id_In p l : In p l -> find_id (Packet.id p) l <> None.
Proof.
  unfold find_id. induction l as [|q l IH]; intros H; [contradiction|].
  simpl. destruct (String.eqb (Packet.id q) (Packet.id p)) eqn:E; [discriminate|].
  destruct H as [->|H]; [|auto]. rewrite String.eqb_refl in E. discriminate.
Qed.

Lemma In_remove_id id q l :
  In q (remove_id id l) -> In q l /\ Packet.id q <> id.
Proof.
  unfold remove_id. intros H. apply filter_In in H. destruct H as [H1 H2].
  split; [exact H1|]. intros E. rewrite E, String.eqb_refl in H2. discriminate.
Qed.

(** ** The states the component can reach *)

Lemma handleDisconnect_lastAck env r w :
  NodeState.lastAckReceived (Render.client (store (exec (handleDisconnect env r) w)))
  = NodeState.lastAckReceived (Render.client (store w)).
Proof. open_world w. js_eval. reflexivity. Qed.

Lemma handleDropPacket_keeps_fields env r id w :
  same_protocol_fields (Render.client (store (exec (handleDropPacket env r id) w)))
                       (Render.client (store w))
  /\ same_protocol_fields (Render.server (store (exec (handleDropPacket env r id) w)))
                          (Render.server (store w)).
Proof.
  destruct (find_id id (Render.packets r)) as [pkt|] eqn:F.
  - destruct (handleDropPacket_found env r id w pkt F) as (_ & Hs & Hp & _).
    destruct (Packet.source pkt); simpl in Hs, Hp; rewrite Hp;
      split; try exact Hs; repeat split.
  - unfold handleDropPacket. rewrite F. open_world w. js_eval. repeat split.
Qed.

Lemma processPacketArrival_request env r p w :
  roles_ok r ->
  client_request p ->
  waiting (Render.server r) ->
  let server := Render.server (store w) in
  let server' := Render.server (store (exec (processPacketArrival env r p) w)) in
  (NodeState.connectionState server' = NodeState.connectionState server
   \/ NodeState.connectionState server' = ConnectionState.SYN_RCVD)
  /\ NodeState.seq server' = NodeState.seq server
  /\ (timers (exec (processPacketArrival env r p) w) = timers w
      \/ timers (exec (processPacketArrival env r p) w)
         = (timers w ++ [mkTimer responder_stub 100])%list).
Proof.
  intros [Hc Hs] (Hsrc & Hd & Hf) Hw.
  open_render r. open_world w. destruct p as [id src dst flag sq ak pl ses ts'].
  unfold waiting in Hw. simpl in Hc, Hs, Hsrc, Hd, Hf, Hw. subst.
  destruct Hw as [-> | ->], Hf as [-> | ->]; js_eval; conj_split;
    try reflexivity; try (left; reflexivity); right; reflexivity.
Qed.

Lemma Forall_remove_id (P : Packet.t -> Prop) id l :
  Forall P l -> Forall P (remove_id id l).
Proof.
  rewrite !Forall_forall. intros H q Hq. apply H. now apply In_remove_id in Hq.
Qed.

Lemma reachable_step env e w : reachable_shape w -> reachable_shape (exec (step env e) w).
Proof.
  intros Hw. pose proof Hw as (Hroles & Hcs & Hses & Hack & Hsrv & Hseq & Hpk & Htm).
  destruct e; cbn [step].
  - (* connect() *)
    rewrite exec_latest.
    destruct Hcs as [E|E]; [|unfold handleConnect; rewrite E; exact Hw].
    destruct (handleConnect_sends env (store w) w E) as (P & T & _ & C & _ & S & A & V).
    split; [apply (roles_ok_kept w _ (roles_handleConnect env (store w) w) Hroles)|].
    split; [right; exact C|].
    split; [rewrite S; exact Hses|].
    split; [rewrite A; exact Hack|].
    split; [rewrite V; exact Hsrv|].
    split; [rewrite V; exact Hseq|].
    split.
    + rewrite P. apply Forall_app. split; [exact Hpk|].
      constructor; [|constructor]. repeat split. left; reflexivity.
    + rewrite T. apply Forall_app. split; [exact Htm|].
      constructor; [|constructor]. split; [exact Hroles|]. split; [|exact Hsrv].
      repeat split. left; reflexivity.
  - (* disconnect() *)
    rewrite exec_latest.
    destruct (handleDisconnect_effect env (store w) w) as (P & T & _ & C & S & V).
    split; [apply (roles_ok_kept w _ (roles_handleDisconnect env (store w) w) Hroles)|].
    split; [left; exact C|].
    split; [exact S|].
    split; [rewrite handleDisconnect_lastAck; exact Hack|].
    split; [rewrite V; exact Hsrv|].
    split; [rewrite V; exact Hseq|].
    split.
    + rewrite P. apply Forall_app. split; [exact Hpk|].
      constructor; [|constructor]. repeat split. right; reflexivity.
    + rewrite T. apply Forall_app. split; [exact Htm|].
      constructor; [|constructor]. split; [exact Hroles|]. split; [|exact Hsrv].
      repeat split. right; reflexivity.
  - (* sendData() *)
    rewrite exec_latest. unfold handleSendData.
    destruct Hcs as [E|E]; rewrite E; exact Hw.
  - (* dropPacket(id) *)
    rewrite exec_latest.
    assert (E : exec (_ <- handleDropPacket env (store w) id ;; ret tt) w
                = exec (handleDropPacket env (store w) id) w)
      by (rewrite exec_bind; reflexivity).
    rewrite E.
    destruct (handleDropPacket_keeps_fields env (store w) id w)
      as [(C1 & _ & A1 & S1) (C2 & Q2 & _ & _)].
    split; [apply (roles_ok_kept w _ (roles_handleDropPacket env (store w) id w) Hroles)|].
    split; [rewrite C1; exact Hcs|].
    split; [rewrite S1; exact Hses|].
    split; [rewrite A1; exact Hack|].
    split; [unfold waiting; rewrite C2; exact Hsrv|].
    split; [rewrite Q2; exact Hseq|].
    split.
    + rewrite handleDropPacket_packets. now apply Forall_remove_id.
    + rewrite handleDropPacket_timers. exact Htm.
  - (* a timer fires *)
    unfold exec, fire.
    destruct (take_timer n (timers w)) as [[t rest]|] eqn:E; [|exact Hw].
    destruct (take_timer_Forall timer_reachable n (timers w) t rest E Htm) as [Pt Fr].
    set (w0 := mkWorld (store w) rest (draws w)).
    assert (H0 : reachable_shape w0) by (repeat (split; [assumption|]); assumption).
    unfold timer_reachable in Pt.
    destruct (callback t) as [r p| |p|r from flag oa|r]; try contradiction;
      cbn [run_callback]; [|exact H0].
    destruct Pt as (Hr & Hp & Hwait).
    fold (exec (run_arrival env r p) w0).
    destruct (in_flight (Packet.id p) w0) eqn:F;
      [|rewrite run_arrival_absent by exact F; exact H0].
    rewrite run_arrival_found by exact F.
    pose proof Hp as (_ & Hd & _).
    destruct (processPacketArrival_request env r p w0 Hr Hp Hwait) as (S1 & Q1 & T1).
    pose proof (processPacketArrival_to_server env r p w0 Hr Hd) as C1.
    unfold reachable_shape. rewrite setPackets_store, setPackets_timers.
    cbn [Render.client Render.server Render.packets].
    split; [exact (roles_ok_kept w0 _ (roles_processPacketArrival env r p w0) Hroles)|].
    split; [rewrite C1; exact Hcs|].
    split; [rewrite C1; exact Hses|].
    split; [rewrite C1; exact Hack|].
    split; [unfold waiting; destruct S1 as [S1|S1]; rewrite S1; [exact Hsrv | right; reflexivity]|].
    split; [rewrite Q1; exact Hseq|].
    split.
    + exact Hpk.
    + destruct T1 as [T1|T1]; rewrite T1; [exact Fr|].
      apply Forall_app. split; [exact Fr|]. constructor; [exact I|constructor].
Qed.

Lemma run_reachable env es : reachable_shape (exec (run env es) initial).
Proof.
  assert (H : forall w0, reachable_shape w0 -> reachable_shape (exec (run env es) w0)).
  { induction es as [|e es IH]; intros w0 H0; [exact H0|].
    cbn [run]. rewrite exec_bind. apply IH. now apply reachable_step. }
  apply H.
  split; [split; reflexivity|]. split; [left; reflexivity|].
  split; [reflexivity|]. split; [reflexivity|]. split; [left; reflexivity|].
  split; [reflexivity|]. split; constructor.
Qed.

(** X12.  The states the component can be in.  In every run from the
    initial state, whatever is clicked and in whatever order timers fire:
    the client is CLOSED or in SYN_SENT, has no session and has
    [lastAckReceived = 0]; the server is in LISTEN or SYN_RCVD and its
    [seq] is still 5000 (it has never sent anything); and every packet in
    flight is a SYN or a FIN from the client to the server.  No DATA,
    ACK or SYN-ACK is ever on the network. *)
Theorem reachable_states env es :
  let w := exec (run env es) initial in
  (NodeState.connectionState (Render.client (store w)) = ConnectionState.CLOSED
   \/ NodeState.connectionState (Render.client (store w)) = ConnectionState.SYN_SENT)
  /\ NodeState.sessionId (Render.client (store w)) = None
  /\ NodeState.lastAckReceived (Render.client (store w)) = 0
  /\ (NodeState.connectionState (Render.server (store w)) = ConnectionState.LISTEN
      \/ NodeState.connectionState (Render.server (store w)) = ConnectionState.SYN_RCVD)
  /\ NodeState.seq (Render.server (store w)) = 5000
  /\ Forall client_request (Render.packets (store w)).
Proof.
  destruct (run_reachable env es) as (_ & C & S & A & V & Q & P & _).
  intros w. conj_split; assumption.
Qed.

(** ** The annotation service *)

Lemma or_nothing_nonempty x s : or_nothing x = Some s -> s <> "" /\ x = Some s.
Proof.
  destruct x as [y|]; simpl; [|discriminate].
  destruct (String.eqb_spec y ""); [discriminate|].
  intros H. inversion H; subst. auto.
Qed.

(** X13.  [generateSecurePayload] always yields a payload, and never an
    empty one: without an API key (unset or empty) it is the mock payload
    and the model is not consulted; when the call fails it is 0xCAFEBABE;
    when the response has no text, or only text that trims to nothing, it
    is 0xDEADBEEF; otherwise it is the trimmed text. *)
Theorem generateSecurePayload_never_empty API_KEY generateContent trim :
  let payload := generateSecurePayload API_KEY generateContent trim in
  payload <> ""
  /\ (or_nothing API_KEY = None -> payload = "Mock Secure Data Payload")
  /\ (or_nothing API_KEY <> None ->
      match generateContent "gemini-3-flash-preview" payload_request with
      | failed => payload = "0xCAFEBABE"
      | response None => payload = "0xDEADBEEF"
      | response (Some text) =>
          payload = if String.eqb (trim text) "" then "0xDEADBEEF" else trim text
      end).
Proof.
  intros payload. subst payload. unfold generateSecurePayload, getAiClient, apiKey.
  destruct (or_nothing API_KEY) as [k|] eqn:K.
  - destruct (or_nothing_nonempty _ _ K) as [Hk _].
    apply String.eqb_neq in Hk. rewrite Hk. cbn [negb].
    destruct (generateContent "gemini-3-flash-preview" payload_request) as [|[text|]];
      cbn [option_map or_nothing].
    + split; [discriminate|]. split; [discriminate|]. reflexivity.
    + destruct (String.eqb_spec (trim text) "") as [E|E].
      * split; [discriminate|]. split; [discriminate|]. reflexivity.
      * split; [exact E|]. split; [discriminate|]. reflexivity.
    + split; [discriminate|]. split; [discriminate|]. reflexivity.
  - cbn. split; [discriminate|]. split; [reflexivity|]. intros H. now elim H.
Qed.

Lemma generateSecurePayload_never_empty_witness :
  generateSecurePayload (Some "") (fun _ _ => failed) (fun s => s)
  = "Mock Secure Data Payload"
  /\ generateSecurePayload (Some "key") (fun _ _ => response (Some "   ")) (fun _ => "")
     = "0xDEADBEEF".
Proof.
  split.
  - apply (generateSecurePayload_never_empty (Some "") (fun _ _ => failed) (fun s => s)).
    reflexivity.
  - destruct (generateSecurePayload_never_empty (Some "key")
                (fun _ _ => response (Some "   ")) (fun _ => "")) as (_ & _ & H).
    apply H. discriminate.
Defined.

(** X14.  [analyzePacket] always yields a text, and never an empty one:
    without an API key it reports that the key is not configured and the
    model is not consulted; a failed call is reported as a network error;
    a response without text, or with empty text, gives the stock
    sentence; otherwise the text is the response's. *)
Theorem analyzePacket_never_empty API_KEY generateContent packet state :
  let text := analyzePacket API_KEY generateContent packet state in
  text <> ""
  /\ (or_nothing API_KEY = None ->
      text = "API Key not configured. Cannot analyze packet.")
  /\ (or_nothing API_KEY <> None ->
      match generateContent "gemini-3-flash-preview" (analysis_prompt packet state) with
      | failed => text = "Analysis failed due to network error."
      | response None => text = "No analysis available."
      | response (Some answer) =>
          text = if String.eqb answer "" then "No analysis available." else answer
      end).
Proof.
  intros text. subst text. unfold analyzePacket, getAiClient, apiKey.
  destruct (or_nothing API_KEY) as [k|] eqn:K.
  - destruct (or_nothing_nonempty _ _ K) as [Hk _].
    apply String.eqb_neq in Hk. rewrite Hk. cbn [negb].
    destruct (generateContent "gemini-3-flash-preview" (analysis_prompt packet state))
      as [|[answer|]]; cbn [or_nothing].
    + split; [discriminate|]. split; [discriminate|]. reflexivity.
    + destruct (String.eqb_spec answer "") as [E|E].
      * split; [discriminate|]. split; [discriminate|]. reflexivity.
      * split; [exact E|]. split; [discriminate|]. reflexivity.
    + split; [discriminate|]. split; [discriminate|]. reflexivity.
  - cbn. split; [discriminate|]. split; [reflexivity|]. intros H. now elim H.
Qed.

Lemma analyzePacket_never_empty_witness :
  analyzePacket None (fun _ _ => response (Some "fine"))
    (demo_packet PacketFlag.SYN CLIENT 100 0) ConnectionState.CLOSED
  = "API Key not configured. Cannot analyze packet."
  /\ analyzePacket (Some "key") (fun _ _ => response (Some ""))
       (demo_packet PacketFlag.SYN CLIENT 100 0) ConnectionState.CLOSED
     = "No analysis available.".
Proof.
  split.
  - apply (analyzePacket_never_empty None (fun _ _ => response (Some "fine"))
             (demo_packet PacketFlag.SYN CLIENT 100 0) ConnectionState.CLOSED).
    reflexivity.
  - destruct (analyzePacket_never_empty (Some "key") (fun _ _ => response (Some ""))
                (demo_packet PacketFlag.SYN CLIENT 100 0) ConnectionState.CLOSED)
      as (_ & _ & H).
    apply H. discriminate.
Defined.

(** ** Sequence numbers on the network *)

Lemma StronglySorted_remove_id (R : Packet.t -> Packet.t -> Prop) id l :
  StronglySorted R l -> StronglySorted R (remove_id id l).
Proof.
  unfold remove_id. induction 1 as [|p l Hs IH Hf]; simpl; [constructor|].
  destruct (negb (String.eqb (Packet.id p) id)); [|exact IH].
  constructor; [exact IH|].
  rewrite Forall_forall in *. intros q Hq. apply Hf. apply filter_In in Hq. apply Hq.
Qed.

Lemma StronglySorted_snoc (R : Packet.t -> Packet.t -> Prop) l x :
  StronglySorted R l -> Forall (fun p => R p x) l -> StronglySorted R (l ++ [x]).
Proof.
  induction 1 as [|p l Hs IH Hf]; intros Hx; simpl.
  - constructor; constructor.
  - inversion Hx; subst. constructor; [auto|].
    apply Forall_app. split; [exact Hf|]. constructor; [assumption|constructor].
Qed.

Lemma seqs_ascend_after_send (w w' : World) (p : Packet.t) :
  seqs_ascend w ->
  Render.packets (store w') = (Render.packets (store w) ++ [p])%list ->
  Packet.seq p = NodeState.seq (Render.client (store w)) ->
  NodeState.seq (Render.client (store w')) = NodeState.seq (Render.client (store w)) + 1 ->
  INITIAL_SEQ <= NodeState.seq (Render.client (store w)) ->
  seqs_ascend w'.
Proof.
  intros [Hs Hb] P Hp S Hlow. unfold seqs_ascend. rewrite P, S. split.
  - apply StronglySorted_snoc; [exact Hs|].
    rewrite Forall_forall in *. intros q Hq. rewrite Hp. apply Hb, Hq.
  - apply Forall_app. split.
    + rewrite Forall_forall in *. intros q Hq. specialize (Hb q Hq). lia.
    + constructor; [lia | constructor].
Qed.

Lemma seqs_ascend_after_removal (w w' : World) id :
  seqs_ascend w ->
  Render.packets (store w') = remove_id id (Render.packets (store w)) ->
  NodeState.seq (Render.client (store w')) = NodeState.seq (Render.client (store w)) ->
  seqs_ascend w'.
Proof.
  intros [Hs Hb] P S. unfold seqs_ascend. rewrite P, S. split.
  - now apply StronglySorted_remove_id.
  - now apply Forall_remove_id.
Qed.

Lemma seqs_ascend_step env e w :
  reachable_shape w ->
  INITIAL_SEQ <= NodeState.seq (Render.client (store w)) ->
  seqs_ascend w ->
  seqs_ascend (exec (step env e) w)
  /\ INITIAL_SEQ <= NodeState.seq (Render.client (store (exec (step env e) w))).
Proof.
  intros (Hroles & Hcs & _ & _ & _ & _ & _ & Htm) Hlow Hw.
  destruct e; cbn [step].
  - (* connect() *)
    rewrite exec_latest.
    destruct Hcs as [E|E]; [|unfold handleConnect; rewrite E; split; assumption].
    destruct (handleConnect_sends env (store w) w E) as (P & _ & _ & _ & S & _).
    split; [|rewrite S; lia].
    apply (seqs_ascend_after_send w _ _ Hw P); [reflexivity | exact S | exact Hlow].
  - (* disconnect() *)
    rewrite exec_latest.
    destruct (handleDisconnect_effect env (store w) w) as (P & _ & S & _).
    split; [|rewrite S; lia].
    apply (seqs_ascend_after_send w _ _ Hw P); [reflexivity | exact S | exact Hlow].
  - (* sendData() *)
    rewrite exec_latest. unfold handleSendData.
    destruct Hcs as [E|E]; rewrite E; split; assumption.
  - (* dropPacket(id) *)
    rewrite exec_latest.
    assert (E : exec (_ <- handleDropPacket env (store w) id ;; ret tt) w
                = exec (handleDropPacket env (store w) id) w)
      by (rewrite exec_bind; reflexivity).
    rewrite E.
    destruct (handleDropPacket_keeps_fields env (store w) id w) as [(_ & S & _) _].
    split; [|rewrite S; exact Hlow].
    apply (seqs_ascend_after_removal w _ id Hw);
      [apply handleDropPacket_packets | exact S].
  - (* a timer fires *)
    unfold exec, fire.
    destruct (take_timer n (timers w)) as [[t rest]|] eqn:E; [|split; assumption].
    destruct (take_timer_Forall timer_reachable n (timers w) t rest E Htm) as [Pt _].
    set (w0 := mkWorld (store w) rest (draws w)).
    unfold timer_reachable in Pt.
    destruct (callback t) as [r p| |p|r from flag oa|r]; try contradiction;
      cbn [run_callback]; [|split; assumption].
    destruct Pt as (Hr & (_ & Hd & _) & _).
    fold (exec (run_arrival env r p) w0).
    pose proof (run_arrival_to_server env r p w0 Hr Hd) as C.
    pose proof (run_arrival_packets env r p w0) as P.
    split; [|rewrite C; exact Hlow].
    destruct Hw as [Hs Hb]. unfold seqs_ascend. rewrite P, C. split; assumption.
Qed.

(** X15.  In every run from the initial state, the packets in flight
    stand in the order they were sent and each carries a [seq] strictly
    above the one before it: no two packets on the network share a
    sequence number, every one lies between 100 and the client's current
    [seq] (excluded), and the client's [seq] never falls below 100. *)
Theorem in_flight_seqs_ascend env es :
  let w := exec (run env es) initial in
  StronglySorted (fun p q => Packet.seq p < Packet.seq q) (Render.packets (store w))
  /\ Forall (fun p => 100 <= Packet.seq p < NodeState.seq (Render.client (store w)))
            (Render.packets (store w))
  /\ 100 <= NodeState.seq (Render.client (store w)).
Proof.
  assert (H : forall w0,
             reachable_shape w0 ->
             INITIAL_SEQ <= NodeState.seq (Render.client (store w0)) ->
             seqs_ascend w0 ->
             seqs_ascend (exec (run env es) w0)
             /\ INITIAL_SEQ <= NodeState.seq (Render.client (store (exec (run env es) w0)))).
  { induction es as [|e es IH]; intros w0 H0 L0 S0; [split; assumption|].
    cbn [run]. rewrite exec_bind.
    destruct (seqs_ascend_step env e w0 H0 L0 S0) as [S1 L1].
    apply IH; [now apply reachable_step | exact L1 | exact S1]. }
  destruct (H initial) as [[S B] L].
  - split; [split; reflexivity|]. split; [left; reflexivity|].
    split; [reflexivity|]. split; [reflexivity|]. split; [left; reflexivity|].
    split; [reflexivity|]. split; constructor.
  - discriminate.
  - split; constructor.
  - intros w. split; [exact S|]. split; [exact B | exact L].
Qed.

(** ** A lost SYN, a half-open server *)

Lemma remove_id_snoc id l p :
  find_id id l = None -> Packet.id p = id -> remove_id id (l ++ [p]) = l.
Proof.
  intros Hl Hp. unfold remove_id. rewrite filter_app. simpl.
  rewrite Hp, String.eqb_refl. simpl. rewrite app_nil_r.
  now apply remove_id_absent.
Qed.

Lemma find_id_snoc id l p :
  find_id id l = None -> Packet.id p = id -> find_id id (l ++ [p]) = Some p.
Proof.
  unfold find_id. intros Hl Hp. induction l as [|q l IH]; simpl in *.
  - now rewrite Hp, String.eqb_refl.
  - destruct (String.eqb (Packet.id q) id); [discriminate|auto].
Qed.

Lemma run_app env es1 es2 w :
  exec (run env (es1 ++ es2)) w = exec (run env es2) (exec (run env es1) w).
Proof.
  revert w. induction es1 as [|e es1 IH]; intros w; [reflexivity|].
  simpl app. cbn [run]. rewrite !exec_bind. apply IH.
Qed.

(** X16.  [connect()] followed by the loss of the SYN (its id not being in
    use already): the network is as it was before the click and the server
    has not been touched, but the client is left in SYN_SENT, where
    [connect()] is refused; the SYN's timer is still pending and its
    firing changes nothing. *)
Theorem dropped_syn_strands_client env w :
  NodeState.connectionState (Render.client (store w)) = ConnectionState.CLOSED ->
  in_flight (random_id env (draws w)) w = false ->
  let syn := newPacket env (store w) CLIENT PacketFlag.SYN "" None None
               (draws w) (S (draws w)) in
  let w1 := exec (run env [Connect; DropPacket (Packet.id syn)]) w in
  Render.packets (store w1) = Render.packets (store w)
  /\ Render.server (store w1) = Render.server (store w)
  /\ NodeState.connectionState (Render.client (store w1)) = ConnectionState.SYN_SENT
  /\ timers w1 = (timers w ++ [mkTimer (arrival (store w) syn) LATENCY_MS])%list
  /\ exec (run_arrival env (store w) syn) w1 = w1
  /\ exec (step env Connect) w1 = w1.
Proof.
  intros Hc Hfree syn w1.
  set (w0 := exec (handleConnect env (store w)) w).
  assert (E : w1 = exec (handleDropPacket env (store w0) (Packet.id syn)) w0).
  { subst w1. cbn [run step]. rewrite !exec_bind. reflexivity. }
  destruct (handleConnect_sends env (store w) w Hc) as (P & T & _ & C & _ & _ & _ & V).
  fold w0 in P, T, C, V. fold syn in P, T.
  assert (Hnone : find_id (Packet.id syn) (Render.packets (store w)) = None).
  { unfold in_flight in Hfree. change (Packet.id syn) with (random_id env (draws w)).
    destruct (find_id _ _); [discriminate|reflexivity]. }
  assert (F : find_id (Packet.id syn) (Render.packets (store w0)) = Some syn)
    by (rewrite P; now apply find_id_snoc).
  destruct (handleDropPacket_found env (store w0) (Packet.id syn) w0 syn F)
    as (_ & (C' & _) & Hp & T').
  rewrite <- E in C', Hp, T'.
  change (Packet.source syn) with CLIENT in C', Hp. cbn [node peer] in C', Hp.
  assert (Hpk : Render.packets (store w1) = Render.packets (store w)).
  { rewrite E, handleDropPacket_packets, P. now apply remove_id_snoc. }
  assert (Hst : NodeState.connectionState (Render.client (store w1))
                = ConnectionState.SYN_SENT) by (rewrite C'; exact C).
  split; [exact Hpk|].
  split; [rewrite Hp; exact V|].
  split; [exact Hst|].
  split; [rewrite T'; exact T|].
  split.
  - apply run_arrival_absent. unfold in_flight. now rewrite Hpk, Hnone.
  - cbn [step]. rewrite exec_latest. unfold handleConnect. now rewrite Hst.
Qed.

Lemma dropped_syn_strands_client_witness :
  NodeState.connectionState
    (Render.client (store (exec (run demo_env [Connect; DropPacket "p0"]) initial)))
  = ConnectionState.SYN_SENT
  /\ Render.packets (store (exec (run demo_env [Connect; DropPacket "p0"]) initial)) = [].
Proof.
  destruct (dropped_syn_strands_client demo_env initial eq_refl eq_refl)
    as (P & _ & C & _).
  split; [exact C | exact P].
Defined.

(** X17.  A half-open server is never cleaned up.  In every run from the
    initial state, once the server is in SYN_RCVD it is in SYN_RCVD after
    whatever follows: the FIN of a [disconnect()] is ignored there, and
    nothing else reaches it. *)
Theorem half_open_server_is_stuck env es1 es2 :
  NodeState.connectionState (Render.server (store (exec (run env es1) initial)))
  = ConnectionState.SYN_RCVD ->
  NodeState.connectionState (Render.server (store (exec (run env (es1 ++ es2)) initial)))
  = ConnectionState.SYN_RCVD.
Proof.
  intros H.
  destruct (run_reachable env (es1 ++ es2)) as (_ & _ & _ & _ & [L|R] & _); [|exact R].
  rewrite run_app in L.
  destruct (moves_run env es2 (exec (run env es1) initial)) as [_ Hs].
  unfold server_moves in Hs. rewrite H, L in Hs.
  destruct Hs as [Hs|[Hs|[Hs|Hs]]]; discriminate Hs.
Qed.

Lemma half_open_server_is_stuck_witness :
  NodeState.connectionState
    (Render.server
       (store (exec (run demo_env ([Connect; Fire 0] ++ [Disconnect; Fire 1; Connect]))
                    initial)))
  = ConnectionState.SYN_RCVD.
Proof.
  apply (half_open_server_is_stuck demo_env [Connect; Fire 0] [Disconnect; Fire 1; Connect]).
  reflexivity.
Defined.
